(** * modeltest: decoding database composites into the domain model

    A shallow embedding of [main.go]: the scan (decode) methods of
    [TimeMetadata], [Metadata], [UserOrganization] and [UserOrganizations],
    and the [MarshalJSON] (re-encode) methods of [TimeMetadata] and
    [Metadata].

    Conventions.
    - A method with a pointer receiver that returns [error] becomes a function
      from the receiver's state before the call to the pair of its state after
      the call and the returned error ([None] is Go's nil error).
    - A run-time panic (index or slice bounds out of range) is a result of its
      own, [Panicked], distinct from a returned error.
    - The functions of third-party packages (lib/pq, creack/uuid,
      encoding/json) are the fields of the class [Driver]; the general
      theorems hold for every driver.  [Reference] is one concrete driver,
      used to evaluate the program on concrete literals. *)

From Stdlib Require Import ZArith Ascii String List Lia.
From stdpp Require Import base strings gmap list sorting.

Local Open Scope string_scope.

(* stdpp blocks the unfolding of string concatenation; the proofs below
   compute with it. *)
#[local] Arguments String.append !_ _ / : simpl nomatch.

(** ** Package [strings] (Go standard library), on byte strings *)

(** [strings.IndexByte(cutset, c) >= 0] *)
Fixpoint in_cutset (c : ascii) (cutset : string) : bool :=
  match cutset with
  | EmptyString => false
  | String d cutset' => if Ascii.eqb c d then true else in_cutset c cutset'
  end.

(** [strings.TrimLeft]: drops every leading byte that is in [cutset]. *)
Fixpoint strings_TrimLeft (s cutset : string) : string :=
  match s with
  | EmptyString => EmptyString
  | String c s' => if in_cutset c cutset then strings_TrimLeft s' cutset else s
  end.

(** [strings.TrimRight]: drops every trailing byte that is in [cutset]. *)
Fixpoint strings_TrimRight (s cutset : string) : string :=
  match s with
  | EmptyString => EmptyString
  | String c s' =>
      match strings_TrimRight s' cutset with
      | EmptyString => if in_cutset c cutset then EmptyString else String c EmptyString
      | r => String c r
      end
  end.

(** [strings.Trim(s, cutset)] for an ASCII cutset: all leading and all
    trailing bytes contained in [cutset] are removed. *)
Definition strings_Trim (s cutset : string) : string :=
  strings_TrimLeft (strings_TrimRight s cutset) cutset.

(** [strings.Split(s, sep)] for a one-byte separator: the substrings between
    the separators, in order; never empty (splitting the empty string gives
    one empty substring). *)
Fixpoint strings_Split (s : string) (sep : ascii) : list string :=
  match s with
  | EmptyString => [EmptyString]
  | String c s' =>
      if Ascii.eqb c sep then EmptyString :: strings_Split s' sep
      else match strings_Split s' sep with
           | p :: ps => String c p :: ps
           | [] => [String c EmptyString]
           end
  end.

(** [strings.Join(elems, sep)] *)
Fixpoint strings_Join (elems : list string) (sep : string) : string :=
  match elems with
  | [] => EmptyString
  | [e] => e
  | e :: rest => e ++ sep ++ strings_Join rest sep
  end.

(** The one-character string holding a double quote (byte 34). *)
Definition dquote : string := String (ascii_of_nat 34) EmptyString.

(** ** Errors, panics, dynamic values *)

(** [errors.New] and [errors.Wrap] of github.com/pkg/errors. *)
Inductive error : Type :=
  | errors_New (msg : string)
  | errors_Wrap (cause : error) (msg : string).

Definition ErrInvalidType : error := errors_New "invalid type".

Inductive panic : Type :=
  | IndexOutOfRange (index len : nat)
  | SliceBoundsOutOfRange (high cap : nat).

(** The result of running code that may panic. *)
Inductive outcome (A : Type) : Type :=
  | Returned (a : A)
  | Panicked (p : panic).
Arguments Returned {A} a.
Arguments Panicked {A} p.

#[global] Instance outcome_ret : MRet outcome := fun _ a => Returned a.
#[global] Instance outcome_bind : MBind outcome := fun _ _ f m =>
  match m with
  | Returned a => f a
  | Panicked p => Panicked p
  end.

(** [parts[i]] *)
Definition index (parts : list string) (i : nat) : outcome string :=
  match parts !! i with
  | Some p => Returned p
  | None => Panicked (IndexOutOfRange i (length parts))
  end.

(** [parts[lo:hi]] for a slice whose capacity equals its length, as the
    result of [strings.Split] is. *)
Definition slice (parts : list string) (lo hi : nat) : outcome (list string) :=
  if decide (hi ≤ length parts)%nat
  then Returned (take (hi - lo) (drop lo parts))
  else Panicked (SliceBoundsOutOfRange hi (length parts)).

(** The [src interface{}] a scanner receives from database/sql. *)
Inductive iface : Type :=
  | IfaceString (s : string)
  | IfaceBytes (b : list Byte.byte)
  | IfaceInt64 (n : Z)
  | IfaceBool (b : bool)
  | IfaceNil.

(** ScanToString returns the string version of the given interface.
    If not a string or a byte slice, returns ErrInvalidType. *)
Definition ScanToString (src : iface) : string * option error :=
  match src with
  | IfaceString s => (s, None)
  | IfaceBytes s => (string_of_list_byte s, None)
  | _ => (EmptyString, Some ErrInvalidType)
  end.

(** ** The domain model *)

(** [time.Time] as an instant: seconds and nanoseconds since
    January 1, year 1, 00:00:00 UTC, and the zone offset it is shown in. *)
Record Time : Type := mkTime { sec : Z; nsec : Z; zone : Z }.

(** [time.Time{}] *)
Definition Time_zero : Time := mkTime 0 0 0.

(** [t.IsZero()] *)
Definition IsZero (t : Time) : bool := (sec t =? 0)%Z && (nsec t =? 0)%Z.

(** [uuid.UUID] is a byte slice; [None] is the nil slice. *)
Definition UUID : Type := option (list Byte.byte).

(** [float64] by its bit pattern; the program does no arithmetic on it. *)
Definition float64 : Type := Z.

Record TimeMetadata : Type := mkTimeMetadata {
  CreatedAt : Time;
  UpdatedAt : Time;
  DeletedAt : option Time }.

Inductive User : Type := mkUser {
  User_ID : UUID;
  User_Organizations : list UserOrganization;
  User_Teams : list UserTeam;
  User_PaymentPlan : option PaymentPlan;
  User_Metadata : Metadata }
with Metadata : Type := mkMetadata {
  Owner : option User;
  Metadata_TimeMetadata : TimeMetadata }
with UserOrganization : Type := mkUserOrganization {
  UserID : UUID;
  OrganizationID : UUID;
  Role : string;
  UserOrganization_Metadata : Metadata }
with UserTeam : Type := mkUserTeam {
  UserTeam_UserID : UUID;
  UserTeam_OrganizationID : UUID;
  UserTeam_Role : string;
  UserTeam_Metadata : Metadata }
with PaymentPlan : Type := mkPaymentPlan {
  PaymentPlan_ID : UUID;
  PaymentPlan_Name : string;
  PaymentPlan_Cost : float64;
  PaymentPlan_Currency : string;
  PaymentPlan_Term : string;
  PaymentPlan_Metadata : Metadata }.

(** [UserOrganizations] is [[]UserOrganization]. *)
Definition UserOrganizations : Type := list UserOrganization.

(** Zero values. *)
Definition TimeMetadata_zero : TimeMetadata := mkTimeMetadata Time_zero Time_zero None.
Definition Metadata_zero : Metadata := mkMetadata None TimeMetadata_zero.
Definition UserOrganization_zero : UserOrganization :=
  mkUserOrganization None None EmptyString Metadata_zero.

(** [&User{ID: id}]: every field but the identifier is zero. *)
Definition User_with_ID (id : UUID) : User := mkUser id [] [] None Metadata_zero.

(** The dynamic values the program stores in a [map[string]interface{}]. *)
Inductive any : Type :=
  | AnyUUID (u : UUID)
  | AnyTime (t : Time)
  | AnyTimePtr (p : option Time).

(** ** Third-party functions *)

Class Driver : Type := {
  (** [pq.ParseTimestamp(time.UTC, str)]: a time and an error, both returned
      in every case. *)
  ParseTimestamp : string → Time * option error;
  (** [uuid.Parse(s)]: nil when [s] is not an identifier. *)
  uuid_Parse : string → UUID;
  (** The [Scan] method of [pq.StringArray], on a nil array: the elements,
      or an error. *)
  StringArray_Scan : iface → list string * option error;
  (** [json.Marshal] of a map with string keys. *)
  json_Marshal : gmap string any → option string * option error;
  (** An empty, non-nil map encodes as the empty JSON object. *)
  json_Marshal_empty : json_Marshal ∅ = (Some "{}", None)
}.

(** ** The program *)

Section Program.
Context `{D : Driver}.

(** MarshalJSON implements json.Marshaler interface. *)
Definition TimeMetadata_MarshalJSON (tm : option TimeMetadata)
  : option string * option error :=
  match tm with
  | None => (None, None)
  | Some tm =>
      let mm : gmap string Time := ∅ in
      let mm := if negb (IsZero (CreatedAt tm))
                then <["created_at" := CreatedAt tm]> mm else mm in
      let mm := if negb (IsZero (UpdatedAt tm))
                then <["updated_at" := UpdatedAt tm]> mm else mm in
      let mm := match DeletedAt tm with
                | Some d => if negb (IsZero d) then <["deleted_at" := d]> mm else mm
                | None => mm
                end in
      if decide (size mm = 0) then (None, None)
      else json_Marshal (AnyTime <$> mm)
  end.

(** Scan1 implements sql.Scan interface. *)
Definition TimeMetadata_Scan1 (tm : TimeMetadata) (src : iface)
  : TimeMetadata * option error :=
  match ScanToString src with
  | (_, Some err) => (tm, Some (errors_Wrap err "invalid type for TimeMetadata scan"))
  | (s, None) =>
  let s := strings_Trim s "()" in
  let parts := strings_Split s "," in
  if negb (length parts =? 3)%nat then
    (tm, Some (errors_New "invalid count for TimeMetadata scan"))
  else
  let parts := (λ part, strings_Trim part dquote) <$> parts in
  (* the three elements exist: the length was checked *)
  let '(t, err) := ParseTimestamp (nth 0 parts EmptyString) in
  let tm := mkTimeMetadata t (UpdatedAt tm) (DeletedAt tm) in
  match err with
  | Some err => (tm, Some (errors_Wrap err "error parsing created_at"))
  | None =>
  let '(t, err) := ParseTimestamp (nth 1 parts EmptyString) in
  let tm := mkTimeMetadata (CreatedAt tm) t (DeletedAt tm) in
  match err with
  | Some err => (tm, Some (errors_Wrap err "error parsing updated_at"))
  | None =>
  if negb (String.eqb (nth 2 parts EmptyString) EmptyString) then
    let '(deletedAt, err) := ParseTimestamp (nth 2 parts EmptyString) in
    match err with
    | Some err => (tm, Some (errors_Wrap err "error parsing deleted_at"))
    | None => (mkTimeMetadata (CreatedAt tm) (UpdatedAt tm) (Some deletedAt), None)
    end
  else (tm, None)
  end end end.

(** MarshalJSON implements json.Marshaler interface. *)
Definition Metadata_MarshalJSON (m : Metadata) : option string * option error :=
  let mm : gmap string any := ∅ in
  let mm := match Owner m with
            | Some owner => <["owner_id" := AnyUUID (User_ID owner)]> mm
            | None => mm
            end in
  let mm := if negb (IsZero (CreatedAt (Metadata_TimeMetadata m)))
            then <["created_at" := AnyTime (CreatedAt (Metadata_TimeMetadata m))]> mm
            else mm in
  let mm := if negb (IsZero (UpdatedAt (Metadata_TimeMetadata m)))
            then <["updated_at" := AnyTime (UpdatedAt (Metadata_TimeMetadata m))]> mm
            else mm in
  let mm := match DeletedAt (Metadata_TimeMetadata m) with
            | Some d =>
                if negb (IsZero d)
                then <["deleted_at" := AnyTimePtr (DeletedAt (Metadata_TimeMetadata m))]> mm
                else mm
            | None => mm
            end in
  json_Marshal mm.

(** Scan1 implements sql.Scan interface. *)
Definition Metadata_Scan1 (m : Metadata) (src : iface) : Metadata * option error :=
  match ScanToString src with
  | (_, Some err) => (m, Some (errors_Wrap err "invalid type for Metadata scan"))
  | (s, None) =>
  let s := strings_Trim s "()" in
  let parts := strings_Split s "," in
  if negb (length parts =? 4)%nat then
    (m, Some (errors_New "invalid count for Metadata scan"))
  else
  let parts := (λ part, strings_Trim part dquote) <$> parts in
  let ownerID := uuid_Parse (nth 0 parts EmptyString) in
  match ownerID with
  | None => (m, Some (errors_New "invalid owner_id for Metadata scan"))
  | Some _ =>
  let m := mkMetadata (Some (User_with_ID ownerID)) (Metadata_TimeMetadata m) in
  let '(tm, err) :=
    TimeMetadata_Scan1 (Metadata_TimeMetadata m)
      (IfaceString ("(" ++ strings_Join (drop 1 parts) "," ++ ")")) in
  (mkMetadata (Owner m) tm, err)
  end end.

(** Scan impements sql.Scanner interface. *)
Definition UserOrganization_Scan (uo : UserOrganization) (src : iface)
  : outcome (UserOrganization * option error) :=
  match ScanToString src with
  | (_, Some err) =>
      Returned (uo, Some (errors_Wrap err "invalid type for UserOrganization scan"))
  | (s, None) =>
  let parts := strings_Split (strings_Trim s "()") "," in
  p0 ← index parts 0;
  let uo := mkUserOrganization (uuid_Parse p0) (OrganizationID uo) (Role uo)
              (UserOrganization_Metadata uo) in
  p1 ← index parts 1;
  let uo := mkUserOrganization (UserID uo) (uuid_Parse p1) (Role uo)
              (UserOrganization_Metadata uo) in
  p2 ← index parts 2;
  let uo := mkUserOrganization (UserID uo) (OrganizationID uo) p2
              (UserOrganization_Metadata uo) in
  match UserID uo with
  | None => Returned (uo, Some (errors_New "invalid user_id"))
  | Some _ =>
  match OrganizationID uo with
  | None => Returned (uo, Some (errors_New "invalid organization_id"))
  | Some _ =>
  if String.eqb (Role uo) EmptyString then
    Returned (uo, Some (errors_New "invalid user_role"))
  else
  ps ← slice parts 3 7;
  let tm := "(" ++ strings_Join ps "," ++ ")" in
  let '(m, err) := Metadata_Scan1 (UserOrganization_Metadata uo) (IfaceString tm) in
  let uo := mkUserOrganization (UserID uo) (OrganizationID uo) (Role uo) m in
  match err with
  | Some err =>
      Returned (uo, Some (errors_Wrap err "error scan TimeMetadata for UserOrganization"))
  | None => Returned (uo, None)
  end end end end.

(** The [for _, elem := range strArray] loop of [UserOrganizations.Scan]. *)
Fixpoint UserOrganizations_Scan_range (uos : UserOrganizations) (strArray : list string)
  : outcome (UserOrganizations * option error) :=
  match strArray with
  | [] => Returned (uos, None)
  | elem :: strArray' =>
      let uo := UserOrganization_zero in
      r ← UserOrganization_Scan uo (IfaceString elem);
      match r with
      | (_, Some err) =>
          Returned (uos, Some (errors_Wrap err
            "error parsing db result element into user organization"))
      | (uo, None) => UserOrganizations_Scan_range (uos ++ [uo])%list strArray'
      end
  end.

(** Scan implement sql.Scanner interface. *)
Definition UserOrganizations_Scan (uos : UserOrganizations) (src : iface)
  : outcome (UserOrganizations * option error) :=
  match StringArray_Scan src with
  | (_, Some err) =>
      Returned (uos, Some (errors_Wrap err "error parsing db result into string array"))
  | (strArray, None) => UserOrganizations_Scan_range uos strArray
  end.

(** The element [elem] decodes, on a fresh receiver, to [uo]. *)
Definition decodes_to (elem : string) (uo : UserOrganization) : Prop :=
  UserOrganization_Scan UserOrganization_zero (IfaceString elem) = Returned (uo, None).

End Program.

(** ** A reference driver

    One concrete driver, to run the program on concrete literals.  It agrees
    with the third-party packages on the texts named here and is narrower
    than they are elsewhere:
    - [ParseTimestamp] reads [YYYY-MM-DD HH:MM:SS], optionally followed by the
      zone [+00], with every field in its calendar range, to the instant
      lib/pq reads.  Every other text it refuses, returning the zero time and
      an error of its own; lib/pq reads more texts (fractions of a second,
      other zones, years before Christ, fields out of range, which it carries
      over) and, on a text it refuses, returns the time built from the fields
      read so far with its own error.  Nothing below states which time or
      which error a refused text gives.
    - [uuid_Parse] reads the 36-character form of an identifier.
    - [StringArray_Scan] reads a one-dimensional array literal whose elements
      are quoted (with backslash escapes) or plain; a plain element NULL is
      refused, since a nil element is no string.
    - [json_Marshal] writes the keys in sorted order, a time in RFC 3339 and
      an identifier in its 36-character form. *)

Module Reference.

Definition digit_value (c : ascii) : option Z :=
  let n := Z.of_nat (nat_of_ascii c) in
  if ((48 <=? n) && (n <=? 57))%Z then Some (n - 48)%Z else None.

(** [strconv.Atoi] on a non-empty run of decimal digits. *)
Fixpoint atoi_from (acc : Z) (s : string) : option Z :=
  match s with
  | EmptyString => Some acc
  | String c s' =>
      match digit_value c with
      | Some d => atoi_from (10 * acc + d)%Z s'
      | None => None
      end
  end.

Definition atoi (s : string) : option Z :=
  match s with
  | EmptyString => None
  | _ => atoi_from 0 s
  end.

Definition is_leap (y : Z) : bool :=
  ((y mod 4 =? 0) && (negb (y mod 100 =? 0) || (y mod 400 =? 0)))%Z.

Definition days_in_month (y m : Z) : Z :=
  if (m =? 2)%Z then (if is_leap y then 29 else 28)%Z
  else if ((m =? 4) || (m =? 6) || (m =? 9) || (m =? 11))%Z then 30%Z
  else 31%Z.

(** Days from January 1, year 1 to the given day of the proleptic
    Gregorian calendar. *)
Definition days_from_civil (y m d : Z) : Z :=
  let y' := (if m <=? 2 then y - 1 else y)%Z in
  let era := (y' / 400)%Z in
  let yoe := (y' - era * 400)%Z in
  let mp := (if 2 <? m then m - 3 else m + 9)%Z in
  let doy := ((153 * mp + 2) / 5 + d - 1)%Z in
  let doe := (yoe * 365 + yoe / 4 - yoe / 100 + doy)%Z in
  (era * 146097 + doe - 306)%Z.

(** The inverse of [days_from_civil]: year, month and day. *)
Definition civil_from_days (days : Z) : Z * Z * Z :=
  let z := (days + 306)%Z in
  let era := (z / 146097)%Z in
  let doe := (z - era * 146097)%Z in
  let yoe := ((doe - doe / 1460 + doe / 36524 - doe / 146096) / 365)%Z in
  let doy := (doe - (365 * yoe + yoe / 4 - yoe / 100))%Z in
  let mp := ((5 * doy + 2) / 153)%Z in
  let d := (doy - (153 * mp + 2) / 5 + 1)%Z in
  let m := (if mp <? 10 then mp + 3 else mp - 9)%Z in
  let y := (yoe + era * 400 + (if m <=? 2 then 1 else 0))%Z in
  (y, m, d).

Definition parse_error : error := errors_New "pq: unable to parse timestamp".

Definition expect (s : string) (c : ascii) (pos : nat) : bool :=
  match String.get pos s with
  | Some d => Ascii.eqb c d
  | None => false
  end.

Definition ParseTimestamp (str : string) : Time * option error :=
  let body_ok :=
    (String.length str =? 19)%nat
    || ((String.length str =? 22)%nat && String.eqb (String.substring 19 3 str) "+00") in
  let seps_ok :=
    expect str "-" 4 && expect str "-" 7 && expect str " " 10
    && expect str ":" 13 && expect str ":" 16 in
  if negb (body_ok && seps_ok) then (Time_zero, Some parse_error) else
  match atoi (String.substring 0 4 str), atoi (String.substring 5 2 str),
        atoi (String.substring 8 2 str), atoi (String.substring 11 2 str),
        atoi (String.substring 14 2 str), atoi (String.substring 17 2 str) with
  | Some year, Some month, Some day, Some hour, Some minute, Some second =>
      if ((1 <=? month) && (month <=? 12) && (1 <=? day)
          && (day <=? days_in_month year month)
          && (hour <? 24) && (minute <? 60) && (second <? 60))%Z
      then (mkTime ((days_from_civil year month day * 24 + hour) * 3600
                    + minute * 60 + second)%Z 0 0, None)
      else (Time_zero, Some parse_error)
  | _, _, _, _, _, _ => (Time_zero, Some parse_error)
  end.

Definition hex_value (c : ascii) : option N :=
  let n := N_of_ascii c in
  if ((48 <=? n) && (n <=? 57))%N then Some (n - 48)%N
  else if ((97 <=? n) && (n <=? 102))%N then Some (n - 87)%N
  else if ((65 <=? n) && (n <=? 70))%N then Some (n - 55)%N
  else None.

(** The byte written by the two hexadecimal digits at [pos]. *)
Definition xtob (s : string) (pos : nat) : option Byte.byte :=
  match String.get pos s, String.get (S pos) s with
  | Some h, Some l =>
      match hex_value h, hex_value l with
      | Some h, Some l => Byte.of_N (16 * h + l)
      | _, _ => None
      end
  | _, _ => None
  end.

Definition uuid_offsets : list nat :=
  [0; 2; 4; 6; 9; 11; 14; 16; 19; 21; 24; 26; 28; 30; 32; 34]%nat.

Definition uuid_Parse (s : string) : UUID :=
  if negb (String.length s =? 36)%nat then None
  else if negb (expect s "-" 8 && expect s "-" 13 && expect s "-" 18 && expect s "-" 23)
  then None
  else mapM (xtob s) uuid_offsets.

(** The body of a quoted array element, after its opening quote, and the
    text after its closing quote. *)
Fixpoint read_quoted (s : string) : option (string * string) :=
  match s with
  | EmptyString => None
  | String c s' =>
      if Ascii.eqb c (ascii_of_nat 34) then Some (EmptyString, s')
      else if Ascii.eqb c (ascii_of_nat 92) then
        match s' with
        | EmptyString => None
        | String e s'' =>
            match read_quoted s'' with
            | Some (body, rest) => Some (String e body, rest)
            | None => None
            end
        end
      else
        match read_quoted s' with
        | Some (body, rest) => Some (String c body, rest)
        | None => None
        end
  end.

(** A plain array element, up to the next comma or closing brace. *)
Fixpoint read_plain (s : string) : string * string :=
  match s with
  | EmptyString => (EmptyString, EmptyString)
  | String c s' =>
      if Ascii.eqb c "," || Ascii.eqb c "}" then (EmptyString, s)
      else let '(body, rest) := read_plain s' in (String c body, rest)
  end.

Definition read_element (s : string) : option (string * string) :=
  match s with
  | String c s' =>
      if Ascii.eqb c (ascii_of_nat 34) then read_quoted s'
      else match read_plain s with
           | (EmptyString, _) => None
           | (body, rest) => if String.eqb body "NULL" then None else Some (body, rest)
           end
  | EmptyString => None
  end.

(** The elements of an array literal after its opening brace. *)
Fixpoint read_elements (fuel : nat) (s : string) : option (list string) :=
  match fuel with
  | O => None
  | S fuel' =>
      match read_element s with
      | Some (e, String c rest) =>
          if Ascii.eqb c "}" then
            match rest with EmptyString => Some [e] | _ => None end
          else if Ascii.eqb c "," then
            match read_elements fuel' rest with
            | Some es => Some (e :: es)
            | None => None
            end
          else None
      | _ => None
      end
  end.

Definition array_error : error := errors_New "pq: unable to parse array".

Definition scanBytes (s : string) : list string * option error :=
  match s with
  | String c s' =>
      if negb (Ascii.eqb c "{") then ([], Some array_error)
      else if String.eqb s' "}" then ([], None)
      else match read_elements (String.length s') s' with
           | Some es => (es, None)
           | None => ([], Some array_error)
           end
  | EmptyString => ([], Some array_error)
  end.

Definition StringArray_Scan (src : iface) : list string * option error :=
  match src with
  | IfaceBytes b => scanBytes (string_of_list_byte b)
  | IfaceString s => scanBytes s
  | IfaceNil => ([], None)
  | _ => ([], Some (errors_New "pq: cannot convert to StringArray"))
  end.

Definition digit (n : Z) : ascii := ascii_of_nat (48 + Z.to_nat (n mod 10)).

Definition pad2 (n : Z) : string :=
  String (digit (n / 10)) (String (digit n) EmptyString).

Definition pad4 (n : Z) : string :=
  String (digit (n / 1000)) (String (digit (n / 100)) (pad2 n)).

Fixpoint pad_digits (width : nat) (n : Z) : string :=
  match width with
  | O => EmptyString
  | S width' => pad_digits width' (n / 10) ++ String (digit n) EmptyString
  end.

(** The RFC 3339 text of a time, or nothing when its year is outside
    0..9999, as [Time.MarshalJSON] has it. *)
Definition format_time (t : Time) : option string :=
  let local := (sec t + zone t)%Z in
  let '(y, m, d) := civil_from_days (local / 86400) in
  let rem := (local mod 86400)%Z in
  if negb ((0 <=? y) && (y <=? 9999))%Z then None else
  let frac :=
    if (nsec t =? 0)%Z then EmptyString
    else "." ++ strings_TrimRight (pad_digits 9 (nsec t)) "0" in
  let off := Z.abs (zone t) in
  let zn :=
    if (zone t =? 0)%Z then "Z"
    else (if (zone t <? 0)%Z then "-" else "+")
         ++ pad2 (off / 3600) ++ ":" ++ pad2 (off mod 3600 / 60) in
  Some (dquote ++ pad4 y ++ "-" ++ pad2 m ++ "-" ++ pad2 d ++ "T"
        ++ pad2 (rem / 3600) ++ ":" ++ pad2 (rem mod 3600 / 60) ++ ":"
        ++ pad2 (rem mod 60) ++ frac ++ zn ++ dquote).

Definition hex_digit (n : N) : ascii :=
  if (n <? 10)%N then ascii_of_N (48 + n) else ascii_of_N (87 + n).

Definition hex_byte (b : Byte.byte) : string :=
  let n := Byte.to_N b in
  String (hex_digit (n / 16)) (String (hex_digit (n mod 16)) EmptyString).

Definition hex_bytes (bs : list Byte.byte) : string :=
  foldr (λ b acc, hex_byte b ++ acc) EmptyString bs.

Definition format_uuid (u : UUID) : string :=
  match u with
  | Some bs =>
      if (length bs =? 16)%nat then
        dquote ++ hex_bytes (take 4 bs) ++ "-" ++ hex_bytes (take 2 (drop 4 bs)) ++ "-"
        ++ hex_bytes (take 2 (drop 6 bs)) ++ "-" ++ hex_bytes (take 2 (drop 8 bs)) ++ "-"
        ++ hex_bytes (drop 10 bs) ++ dquote
      else dquote ++ dquote
  | None => dquote ++ dquote
  end.

Definition format_any (v : any) : option string :=
  match v with
  | AnyUUID u => Some (format_uuid u)
  | AnyTime t => format_time t
  | AnyTimePtr (Some t) => format_time t
  | AnyTimePtr None => Some "null"
  end.

Definition key_le (a b : string * any) : Prop := String.leb a.1 b.1 = true.

#[local] Instance key_le_dec a b : Decision (key_le a b).
Proof. unfold key_le. apply _. Defined.

Definition format_member (kv : string * any) : option string :=
  match format_any kv.2 with
  | Some v => Some (dquote ++ kv.1 ++ dquote ++ ":" ++ v)
  | None => None
  end.

Definition json_Marshal (mm : gmap string any) : option string * option error :=
  match mapM format_member (merge_sort key_le (map_to_list mm)) with
  | Some members => (Some ("{" ++ strings_Join members "," ++ "}"), None)
  | None => (None, Some (errors_New "json: error calling MarshalJSON for type time.Time"))
  end.

Definition driver : Driver :=
  Build_Driver ParseTimestamp uuid_Parse StringArray_Scan json_Marshal eq_refl.

(** [s] between double quotes. *)
Definition quoted (s : string) : string := dquote ++ s ++ dquote.

End Reference.


(** ** The composite literal grammar

    A composite literal is an opening parenthesis, fields separated by
    commas, and a closing parenthesis; a field is written bare or between
    double quotes. *)

(** Every byte of [s] is in [cutset]. *)
Fixpoint all_in (s cutset : string) : bool :=
  match s with
  | EmptyString => true
  | String c s' => in_cutset c cutset && all_in s' cutset
  end.

(** No byte of [s] is in [cutset]. *)
Fixpoint free_of (s cutset : string) : bool :=
  match s with
  | EmptyString => true
  | String c s' => negb (in_cutset c cutset) && free_of s' cutset
  end.

(** A field content with no comma, no parenthesis and no double quote:
    identifiers, timestamps and role names are such. *)
Definition plain (x : string) : bool :=
  free_of x "," && free_of x "()" && free_of x dquote.

(** The field [x] as written in a literal: bare, or between double quotes. *)
Definition field (quote : bool) (x : string) : string :=
  if quote then dquote ++ x ++ dquote else x.

(** The literal with the given written fields. *)
Definition composite (fields : list string) : string :=
  "(" ++ strings_Join fields "," ++ ")".

(** The fields a decoder splits a literal into, before it trims quotes. *)
Definition raw_fields (s : string) : list string :=
  strings_Split (strings_Trim s "()") ",".

(** The fields of a literal as the decoders read them: parentheses trimmed,
    split on commas, double quotes trimmed from each part. *)
Definition composite_fields (s : string) : list string :=
  (λ part, strings_Trim part dquote) <$> raw_fields s.

(** What the specification describes: exactly one leading and one trailing
    parenthesis are removed, further ones stay. *)
Definition strip_one_leading (s : string) : string :=
  match s with
  | String c s' => if Ascii.eqb c "(" then s' else s
  | EmptyString => EmptyString
  end.

Fixpoint strip_one_trailing (s : string) : string :=
  match s with
  | EmptyString => EmptyString
  | String c EmptyString => if Ascii.eqb c ")" then EmptyString else s
  | String c s' => String c (strip_one_trailing s')
  end.

Definition strip_one_pair (s : string) : string :=
  strip_one_trailing (strip_one_leading s).

(** [strings.Count(s, sep)] for a one-byte separator. *)
Fixpoint count_byte (c : ascii) (s : string) : nat :=
  match s with
  | EmptyString => 0
  | String d s' => (if Ascii.eqb d c then 1 else 0) + count_byte c s'
  end.

(** [s] starts with a byte of [cutset]. *)
Definition starts_in (s cutset : string) : bool :=
  match s with
  | String c _ => in_cutset c cutset
  | EmptyString => false
  end.

(** [s] ends with a byte of [cutset]. *)
Fixpoint ends_in (s cutset : string) : bool :=
  match s with
  | EmptyString => false
  | String c EmptyString => in_cutset c cutset
  | String _ s' => ends_in s' cutset
  end.

(** ** Sample texts *)

Definition sample_id : string := "6ba7b810-9dad-11d1-80b4-00c04fd430c8".
Definition sample_created : string := "2024-01-01 00:00:00".
Definition sample_updated : string := "2024-01-02 00:00:00".
Definition sample_deleted : string := "2024-01-03 00:00:00".

(** The instants the reference driver reads from the sample texts. *)
Definition sample_created_time : Time := mkTime 63839664000 0 0.
Definition sample_updated_time : Time := mkTime 63839750400 0 0.
Definition sample_deleted_time : Time := mkTime 63839836800 0 0.

Definition sample_id_bytes : list Byte.byte :=
  [Byte.x6b; Byte.xa7; Byte.xb8; Byte.x10; Byte.x9d; Byte.xad; Byte.x11; Byte.xd1;
   Byte.x80; Byte.xb4; Byte.x00; Byte.xc0; Byte.x4f; Byte.xd4; Byte.x30; Byte.xc8].

(** A membership literal with its seven fields, all bare. *)
Definition sample_membership (role : string) : string :=
  composite [sample_id; sample_id; role; sample_id;
             sample_created; sample_updated; EmptyString].

(** What a fresh receiver holds after decoding [sample_membership role]. *)
Definition sample_decoded (role : string) : UserOrganization :=
  mkUserOrganization (Some sample_id_bytes) (Some sample_id_bytes) role
    (mkMetadata (Some (User_with_ID (Some sample_id_bytes)))
       (mkTimeMetadata sample_created_time sample_updated_time None)).

(** An array literal whose elements, free of quotes and backslashes, are
    each written between double quotes. *)
Definition array_literal (elems : list string) : string :=
  "{" ++ strings_Join (field true <$> elems) "," ++ "}".

(** A receiver that was used before: zero timestamps, a deletion time. *)
Definition used_TimeMetadata : TimeMetadata :=
  mkTimeMetadata Time_zero Time_zero (Some sample_deleted_time).

(** * Properties *)

(** ** Trimming and splitting *)

Section Strings.
Implicit Types (s l r cutset : string) (c : ascii).

Lemma append_empty_r s : s ++ EmptyString = s.
Proof. induction s as [|c s IH]; simpl; [done | by rewrite IH]. Qed.

Lemma append_assoc s1 s2 s3 : (s1 ++ s2) ++ s3 = s1 ++ (s2 ++ s3).
Proof. induction s1 as [|c s1 IH]; simpl; [done | by rewrite IH]. Qed.

Lemma all_in_app s1 s2 cutset :
  all_in (s1 ++ s2) cutset = all_in s1 cutset && all_in s2 cutset.
Proof.
  induction s1 as [|c s1 IH]; simpl; [done |].
  rewrite IH. by destruct (in_cutset c cutset).
Qed.

Lemma free_of_app s1 s2 cutset :
  free_of (s1 ++ s2) cutset = free_of s1 cutset && free_of s2 cutset.
Proof.
  induction s1 as [|c s1 IH]; simpl; [done |].
  rewrite IH. by destruct (in_cutset c cutset).
Qed.

Lemma TrimLeft_all_in l s cutset :
  all_in l cutset = true →
  strings_TrimLeft (l ++ s) cutset = strings_TrimLeft s cutset.
Proof.
  induction l as [|c l IH]; simpl; [done |].
  intros [Hc Hl]%andb_prop. rewrite Hc. auto.
Qed.

Lemma TrimRight_only_cutset r cutset :
  all_in r cutset = true → strings_TrimRight r cutset = EmptyString.
Proof.
  induction r as [|c r IH]; simpl; [done |].
  intros [Hc Hr]%andb_prop. by rewrite IH, Hc.
Qed.

Lemma TrimRight_all_in s r cutset :
  all_in r cutset = true →
  strings_TrimRight (s ++ r) cutset = strings_TrimRight s cutset.
Proof.
  intros Hr. induction s as [|c s IH]; simpl.
  - by apply TrimRight_only_cutset.
  - by rewrite IH.
Qed.

Lemma TrimLeft_TrimRight_all_in l s cutset :
  all_in l cutset = true →
  strings_TrimLeft (strings_TrimRight (l ++ s) cutset) cutset
  = strings_TrimLeft (strings_TrimRight s cutset) cutset.
Proof.
  induction l as [|c l IH]; simpl; [done |].
  intros [Hc Hl]%andb_prop. specialize (IH Hl).
  destruct (strings_TrimRight (l ++ s) cutset) as [|d t] eqn:E.
  - rewrite Hc. simpl in IH. by rewrite <- IH.
  - change (strings_TrimLeft (String c (String d t)) cutset)
      with (if in_cutset c cutset then strings_TrimLeft (String d t) cutset
            else String c (String d t)).
    by rewrite Hc.
Qed.

(** Parentheses (or quotes) around a text, however many, do not survive
    trimming. *)
Lemma Trim_surrounded l s r cutset :
  all_in l cutset = true → all_in r cutset = true →
  strings_Trim (l ++ s ++ r) cutset = strings_Trim s cutset.
Proof.
  intros Hl Hr. unfold strings_Trim.
  rewrite <- append_assoc, TrimRight_all_in by done.
  by apply TrimLeft_TrimRight_all_in.
Qed.

Lemma TrimLeft_free s cutset :
  free_of s cutset = true → strings_TrimLeft s cutset = s.
Proof.
  destruct s as [|c s]; simpl; [done |].
  intros [Hc _]%andb_prop. by destruct (in_cutset c cutset).
Qed.

Lemma TrimRight_free s cutset :
  free_of s cutset = true → strings_TrimRight s cutset = s.
Proof.
  induction s as [|c s IH]; simpl; [done |].
  intros [Hc Hs]%andb_prop. rewrite IH by done.
  destruct s; [| done]. by destruct (in_cutset c cutset).
Qed.

Lemma Trim_free s cutset :
  free_of s cutset = true → strings_Trim s cutset = s.
Proof.
  intros H. unfold strings_Trim. rewrite TrimRight_free by done.
  by apply TrimLeft_free.
Qed.

Lemma Split_nonempty s c : strings_Split s c ≠ [].
Proof.
  induction s as [|d s IH]; simpl; [done |].
  destruct (Ascii.eqb d c); [done |]. by destruct (strings_Split s c).
Qed.

Lemma Split_free_app s rest c p ps :
  free_of s (String c EmptyString) = true →
  strings_Split rest c = p :: ps →
  strings_Split (s ++ rest) c = (s ++ p) :: ps.
Proof.
  intros Hs Hrest. induction s as [|d s IH]; simpl; [done |].
  simpl in Hs. apply andb_prop in Hs as [Hd Hs].
  destruct (Ascii.eqb d c); [done |]. by rewrite IH.
Qed.

Lemma Split_free s c :
  free_of s (String c EmptyString) = true → strings_Split s c = [s].
Proof.
  intros Hs.
  rewrite <- (append_empty_r s) at 1.
  rewrite (Split_free_app s EmptyString c EmptyString []) by done.
  by rewrite append_empty_r.
Qed.

(** Splitting inverts joining when no field holds the separator. *)
Lemma Split_Join fields c :
  fields ≠ [] →
  Forall (λ f, free_of f (String c EmptyString) = true) fields →
  strings_Split (strings_Join fields (String c EmptyString)) c = fields.
Proof.
  intros Hne Hall. induction Hall as [|f fs Hf Hfs IH]; [done |].
  destruct fs as [|g fs].
  - simpl. by apply Split_free.
  - change (strings_Join (f :: g :: fs) (String c EmptyString))
      with (f ++ String c (strings_Join (g :: fs) (String c EmptyString))).
    rewrite (Split_free_app f _ c EmptyString (g :: fs)); [by rewrite append_empty_r | done |].
    simpl strings_Split at 1. rewrite Ascii.eqb_refl. f_equal. by apply IH.
Qed.

Lemma free_of_Join fields sep cutset :
  free_of sep cutset = true →
  Forall (λ f, free_of f cutset = true) fields →
  free_of (strings_Join fields sep) cutset = true.
Proof.
  intros Hsep Hall. induction Hall as [|f fs Hf Hfs IH]; [done |].
  destruct fs as [|g fs]; [done |].
  change (strings_Join (f :: g :: fs) sep)
    with (f ++ sep ++ strings_Join (g :: fs) sep).
  rewrite !free_of_app, Hf, Hsep. by rewrite IH.
Qed.

Lemma TrimLeft_no_leading s cutset :
  starts_in s cutset = false → strings_TrimLeft s cutset = s.
Proof. destruct s as [|c s]; simpl; [done |]. by intros ->. Qed.

Lemma TrimRight_no_trailing s cutset :
  ends_in s cutset = false → strings_TrimRight s cutset = s.
Proof.
  induction s as [|c s IH]; [done |].
  destruct s as [|d s]; simpl in *.
  - by intros ->.
  - intros H. by rewrite (IH H).
Qed.

(** What trimming leaves: of a text between runs of cutset bytes, the text
    itself when it neither starts nor ends with such a byte. *)
Lemma Trim_exact l s r cutset :
  all_in l cutset = true → all_in r cutset = true →
  starts_in s cutset = false → ends_in s cutset = false →
  strings_Trim (l ++ s ++ r) cutset = s.
Proof.
  intros Hl Hr Hstart Hend. rewrite Trim_surrounded by done.
  unfold strings_Trim. rewrite TrimRight_no_trailing by done.
  by apply TrimLeft_no_leading.
Qed.

Lemma TrimLeft_decompose s cutset :
  ∃ l, s = l ++ strings_TrimLeft s cutset
       ∧ all_in l cutset = true
       ∧ starts_in (strings_TrimLeft s cutset) cutset = false.
Proof.
  induction s as [|c s (l & Hs & Hl & Hstart)]; simpl.
  - by exists EmptyString.
  - destruct (in_cutset c cutset) eqn:Hc.
    + exists (String c l). simpl. rewrite Hc, Hl. by rewrite <- Hs.
    + exists EmptyString. by rewrite <- Hc.
Qed.

Lemma TrimRight_decompose s cutset :
  ∃ r, s = strings_TrimRight s cutset ++ r
       ∧ all_in r cutset = true
       ∧ ends_in (strings_TrimRight s cutset) cutset = false.
Proof.
  induction s as [|c s (r & Hs & Hr & Hend)]; simpl.
  - by exists EmptyString.
  - destruct (strings_TrimRight s cutset) as [|d t] eqn:Ht.
    + destruct (in_cutset c cutset) eqn:Hc.
      * exists (String c s). simpl in Hs. subst r. simpl. by rewrite Hc, Hr.
      * exists r. simpl in Hs. subst r. simpl. by rewrite Hc.
    + exists r. simpl in *. by rewrite <- Hs.
Qed.

Lemma ends_in_TrimLeft s cutset :
  ends_in s cutset = false → ends_in (strings_TrimLeft s cutset) cutset = false.
Proof.
  induction s as [|c s IH]; [done |]. intros H.
  change (strings_TrimLeft (String c s) cutset)
    with (if in_cutset c cutset then strings_TrimLeft s cutset else String c s).
  destruct (in_cutset c cutset) eqn:Hc; [| done].
  apply IH. destruct s; simpl in *; congruence.
Qed.

(** Every text is a text that neither starts nor ends with a cutset byte,
    between two runs of cutset bytes. *)
Lemma text_decomposes t cutset :
  ∃ l s r, t = l ++ s ++ r
           ∧ all_in l cutset = true ∧ all_in r cutset = true
           ∧ starts_in s cutset = false ∧ ends_in s cutset = false.
Proof.
  destruct (TrimRight_decompose t cutset) as (r & Ht & Hr & Hend).
  destruct (TrimLeft_decompose (strings_TrimRight t cutset) cutset)
    as (l & Hs & Hl & Hstart).
  exists l, (strings_TrimLeft (strings_TrimRight t cutset) cutset), r.
  repeat split; try done.
  - rewrite <- append_assoc, <- Hs. exact Ht.
  - by apply ends_in_TrimLeft.
Qed.

End Strings.

(** ** The literal grammar and the decoders' view of it *)

Section Grammar.
Implicit Types (x : string) (q : bool).

Lemma plain_free x :
  plain x = true →
  free_of x "," = true ∧ free_of x "()" = true ∧ free_of x dquote = true.
Proof. unfold plain. by intros [[??]%andb_prop ?]%andb_prop. Qed.

Lemma field_free q x cutset :
  free_of x cutset = true → free_of dquote cutset = true →
  free_of (field q x) cutset = true.
Proof.
  intros Hx Hq. destruct q; simpl; [| done].
  by rewrite !free_of_app, Hx, Hq.
Qed.

Lemma field_Trim q x :
  plain x = true → strings_Trim (field q x) dquote = x.
Proof.
  intros (_ & _ & Hx)%plain_free. destruct q; simpl field.
  - rewrite (Trim_surrounded dquote x dquote) by done. by apply Trim_free.
  - by apply Trim_free.
Qed.

(** A literal whose written fields hold no comma and no parenthesis splits
    into these fields. *)
Lemma raw_fields_composite (fields : list string) :
  fields ≠ [] →
  Forall (λ f, free_of f "," = true) fields →
  Forall (λ f, free_of f "()" = true) fields →
  raw_fields (composite fields) = fields.
Proof.
  intros Hne Hcomma Hparen. unfold raw_fields, composite.
  rewrite (Trim_surrounded "(" (strings_Join fields ",") ")") by done.
  rewrite Trim_free by (by apply free_of_Join).
  by apply (Split_Join fields ",").
Qed.

Lemma written_fields_free (qs : list bool) (xs : list string) cutset :
  free_of dquote cutset = true →
  Forall (λ x, free_of x cutset = true) xs →
  Forall (λ f, free_of f cutset = true) (zip_with field qs xs).
Proof.
  intros Hq Hxs. revert qs.
  induction Hxs as [|x xs Hx _ IH]; intros [|q qs]; simpl; constructor; auto.
  by apply field_free.
Qed.

Lemma written_fields_Trim (qs : list bool) (xs : list string) :
  length qs = length xs →
  Forall (λ x, plain x = true) xs →
  (λ part, strings_Trim part dquote) <$> zip_with field qs xs = xs.
Proof.
  intros Hlen Hxs. revert qs Hlen.
  induction Hxs as [|x xs Hx _ IH]; intros [|q qs] Hlen; simplify_eq/=; [done |].
  rewrite field_Trim by done. f_equal. by apply IH.
Qed.

(** The grammar and the decoders agree: a literal written from plain
    contents, each bare or quoted, is read back as these contents. *)
Lemma composite_fields_written (qs : list bool) (xs : list string) :
  xs ≠ [] → length qs = length xs →
  Forall (λ x, plain x = true) xs →
  composite_fields (composite (zip_with field qs xs)) = xs.
Proof.
  intros Hne Hlen Hplain. unfold composite_fields.
  rewrite raw_fields_composite.
  - by apply written_fields_Trim.
  - destruct xs, qs; simplify_eq/=; done.
  - apply written_fields_free; [done |].
    eapply Forall_impl; [done |]. by intros x (? & _)%plain_free.
  - apply written_fields_free; [done |].
    eapply Forall_impl; [done |]. by intros x (_ & ? & _)%plain_free.
Qed.

End Grammar.

(** ** The decoders *)

Section Decoders.
Context `{D : Driver}.

(** *** Failures before the first assignment *)

Lemma TimeMetadata_Scan1_invalid_type tm src s err :
  ScanToString src = (s, Some err) →
  TimeMetadata_Scan1 tm src
  = (tm, Some (errors_Wrap err "invalid type for TimeMetadata scan")).
Proof. intros H. unfold TimeMetadata_Scan1. by rewrite H. Qed.

Lemma TimeMetadata_Scan1_invalid_count tm src s :
  ScanToString src = (s, None) → length (raw_fields s) ≠ 3 →
  TimeMetadata_Scan1 tm src
  = (tm, Some (errors_New "invalid count for TimeMetadata scan")).
Proof.
  intros H Hlen. unfold TimeMetadata_Scan1. rewrite H.
  fold (raw_fields s). by apply Nat.eqb_neq in Hlen as ->.
Qed.

Lemma Metadata_Scan1_invalid_type m src s err :
  ScanToString src = (s, Some err) →
  Metadata_Scan1 m src = (m, Some (errors_Wrap err "invalid type for Metadata scan")).
Proof. intros H. unfold Metadata_Scan1. by rewrite H. Qed.

Lemma Metadata_Scan1_invalid_count m src s :
  ScanToString src = (s, None) → length (raw_fields s) ≠ 4 →
  Metadata_Scan1 m src = (m, Some (errors_New "invalid count for Metadata scan")).
Proof.
  intros H Hlen. unfold Metadata_Scan1. rewrite H.
  fold (raw_fields s). by apply Nat.eqb_neq in Hlen as ->.
Qed.

Lemma Metadata_Scan1_invalid_owner m src s o rest :
  ScanToString src = (s, None) → composite_fields s = o :: rest →
  length rest = 3 → uuid_Parse o = None →
  Metadata_Scan1 m src = (m, Some (errors_New "invalid owner_id for Metadata scan")).
Proof.
  intros H Hfields Hlen Ho. unfold Metadata_Scan1. rewrite H.
  fold (raw_fields s). fold (composite_fields s).
  assert (length (raw_fields s) = 4) as ->.
  { transitivity (length (composite_fields s)).
    - unfold composite_fields. by rewrite length_fmap.
    - rewrite Hfields. simpl. by rewrite Hlen. }
  rewrite Hfields. simpl. by rewrite Ho.
Qed.

Lemma UserOrganization_Scan_invalid_type uo src s err :
  ScanToString src = (s, Some err) →
  UserOrganization_Scan uo src
  = Returned (uo, Some (errors_Wrap err "invalid type for UserOrganization scan")).
Proof. intros H. unfold UserOrganization_Scan. by rewrite H. Qed.

Lemma UserOrganizations_Scan_invalid_array uos src strArray err :
  StringArray_Scan src = (strArray, Some err) →
  UserOrganizations_Scan uos src
  = Returned (uos, Some (errors_Wrap err "error parsing db result into string array")).
Proof. intros H. unfold UserOrganizations_Scan. by rewrite H. Qed.

(** *** Successful decodes *)

Lemma TimeMetadata_Scan1_deleted tm src s c u d tc tu td :
  ScanToString src = (s, None) → composite_fields s = [c; u; d] →
  ParseTimestamp c = (tc, None) → ParseTimestamp u = (tu, None) →
  d ≠ EmptyString → ParseTimestamp d = (td, None) →
  TimeMetadata_Scan1 tm src = (mkTimeMetadata tc tu (Some td), None).
Proof.
  intros H Hfields Hc Hu Hne Hd. unfold TimeMetadata_Scan1. rewrite H.
  fold (raw_fields s). fold (composite_fields s).
  assert (length (raw_fields s) = 3) as ->.
  { transitivity (length (composite_fields s)).
    - unfold composite_fields. by rewrite length_fmap.
    - by rewrite Hfields. }
  rewrite Hfields. simpl. rewrite Hc, Hu. simpl.
  apply String.eqb_neq in Hne as ->. simpl. by rewrite Hd.
Qed.

Lemma TimeMetadata_Scan1_not_deleted tm src s c u tc tu :
  ScanToString src = (s, None) → composite_fields s = [c; u; EmptyString] →
  ParseTimestamp c = (tc, None) → ParseTimestamp u = (tu, None) →
  TimeMetadata_Scan1 tm src = (mkTimeMetadata tc tu (DeletedAt tm), None).
Proof.
  intros H Hfields Hc Hu. unfold TimeMetadata_Scan1. rewrite H.
  fold (raw_fields s). fold (composite_fields s).
  assert (length (raw_fields s) = 3) as ->.
  { transitivity (length (composite_fields s)).
    - unfold composite_fields. by rewrite length_fmap.
    - by rewrite Hfields. }
  rewrite Hfields. simpl. by rewrite Hc, Hu.
Qed.

(** [Metadata.Scan1] hands the last three fields, written bare in a new
    literal, to [TimeMetadata.Scan1]. *)
Lemma Metadata_Scan1_delegates m src s o rest id :
  ScanToString src = (s, None) → composite_fields s = o :: rest →
  length rest = 3 → uuid_Parse o = Some id →
  Metadata_Scan1 m src
  = let '(tm, err) :=
      TimeMetadata_Scan1 (Metadata_TimeMetadata m) (IfaceString (composite rest)) in
    (mkMetadata (Some (User_with_ID (Some id))) tm, err).
Proof.
  intros H Hfields Hlen Ho. unfold Metadata_Scan1. rewrite H.
  fold (raw_fields s). fold (composite_fields s).
  assert (length (raw_fields s) = 4) as ->.
  { transitivity (length (composite_fields s)).
    - unfold composite_fields. by rewrite length_fmap.
    - rewrite Hfields. simpl. by rewrite Hlen. }
  rewrite Hfields. simpl. rewrite Ho. simpl. reflexivity.
Qed.

(** A written ownership literal with an empty fourth field: the owner and
    the two timestamps are set, [DeletedAt] is not touched. *)
Lemma Metadata_Scan1_written m src qo qc qu qd o c u id tc tu :
  ScanToString src
  = (composite [field qo o; field qc c; field qu u; field qd EmptyString], None) →
  plain o = true → plain c = true → plain u = true →
  uuid_Parse o = Some id →
  ParseTimestamp c = (tc, None) → ParseTimestamp u = (tu, None) →
  Metadata_Scan1 m src
  = (mkMetadata (Some (User_with_ID (Some id)))
       (mkTimeMetadata tc tu (DeletedAt (Metadata_TimeMetadata m))), None).
Proof.
  intros Hsrc Ho Hc Hu Hid Htc Htu.
  rewrite (Metadata_Scan1_delegates m src _ o [c; u; EmptyString] id Hsrc);
    [| | done | done].
  - rewrite (TimeMetadata_Scan1_not_deleted _ _ (composite [c; u; EmptyString])
               c u tc tu); [done | done | | done | done].
    apply (composite_fields_written [false; false; false] [c; u; EmptyString]);
      [done | done | by repeat constructor].
  - apply (composite_fields_written [qo; qc; qu; qd] [o; c; u; EmptyString]);
      [done | done | by repeat constructor].
Qed.

(** A written membership literal decodes: two identifiers and a role, bare,
    then the four fields of the ownership block, each bare or quoted. *)
Lemma UserOrganization_Scan_written uo src qo qc qu qd user org role o c u
    user_id org_id id tc tu :
  ScanToString src
  = (composite [user; org; role;
                field qo o; field qc c; field qu u; field qd EmptyString], None) →
  plain user = true → plain org = true → plain role = true →
  plain o = true → plain c = true → plain u = true →
  uuid_Parse user = Some user_id → uuid_Parse org = Some org_id →
  role ≠ EmptyString →
  uuid_Parse o = Some id →
  ParseTimestamp c = (tc, None) → ParseTimestamp u = (tu, None) →
  UserOrganization_Scan uo src
  = Returned
      (mkUserOrganization (Some user_id) (Some org_id) role
         (mkMetadata (Some (User_with_ID (Some id)))
            (mkTimeMetadata tc tu
               (DeletedAt (Metadata_TimeMetadata (UserOrganization_Metadata uo))))),
       None).
Proof.
  intros Hsrc Huser Horg Hrole Ho Hc Hu Huid Hoid Hne Hid Htc Htu.
  unfold UserOrganization_Scan. rewrite Hsrc. fold (raw_fields (composite
    [user; org; role; field qo o; field qc c; field qu u; field qd EmptyString])).
  destruct (plain_free _ Huser) as (? & ? & _), (plain_free _ Horg) as (? & ? & _),
    (plain_free _ Hrole) as (? & ? & _), (plain_free _ Ho) as (? & ? & _),
    (plain_free _ Hc) as (? & ? & _), (plain_free _ Hu) as (? & ? & _).
  rewrite raw_fields_composite;
    [| done | repeat constructor; try done; by apply field_free
     | repeat constructor; try done; by apply field_free].
  simpl. rewrite Huid, Hoid. simpl.
  apply String.eqb_neq in Hne as ->.
  change (slice _ 3 7) with
    (Returned [field qo o; field qc c; field qu u; field qd EmptyString]).
  match goal with
  | |- context [Metadata_Scan1 _ (IfaceString ?t)] =>
      change t
        with (composite [field qo o; field qc c; field qu u; field qd EmptyString])
  end.
  by rewrite (Metadata_Scan1_written _
                (IfaceString (composite [field qo o; field qc c; field qu u;
                                         field qd EmptyString]))
                qo qc qu qd o c u id tc tu eq_refl).
Qed.

(** *** The membership decoder and the field count *)

(** With fewer than three fields the decoder panics on an index. *)
Lemma UserOrganization_Scan_short uo s :
  (length (raw_fields s) < 3)%nat →
  ∃ p, UserOrganization_Scan uo (IfaceString s) = Panicked p.
Proof.
  intros Hlen. unfold UserOrganization_Scan. simpl ScanToString. cbv iota beta.
  fold (raw_fields s).
  destruct (raw_fields s) as [|p0 [|p1 [|p2 rest]]]; simpl in Hlen; try lia;
    eexists; reflexivity.
Qed.

(** The decoder reads the first seven fields only: what follows them has no
    effect on its result. *)
Lemma UserOrganization_Scan_ignores_extra uo s s' :
  (7 ≤ length (raw_fields s))%nat → (7 ≤ length (raw_fields s'))%nat →
  take 7 (raw_fields s) = take 7 (raw_fields s') →
  UserOrganization_Scan uo (IfaceString s) = UserOrganization_Scan uo (IfaceString s').
Proof.
  intros Hlen Hlen' Htake. unfold UserOrganization_Scan. simpl ScanToString.
  cbv iota beta. fold (raw_fields s) (raw_fields s').
  destruct (raw_fields s) as [|a0 [|a1 [|a2 [|a3 [|a4 [|a5 [|a6 extra]]]]]]];
    simpl in Hlen; try lia.
  destruct (raw_fields s') as [|b0 [|b1 [|b2 [|b3 [|b4 [|b5 [|b6 extra']]]]]]];
    simpl in Hlen'; try lia.
  simpl in Htake. injection Htake as -> -> -> -> -> -> ->.
  unfold slice. simpl length.
  rewrite !decide_True by lia. reflexivity.
Qed.

(** The identifiers and the role are read from the fields as split, with
    their quotes if they have any. *)
Lemma UserOrganization_Scan_untrimmed uo s uo' err :
  UserOrganization_Scan uo (IfaceString s) = Returned (uo', err) →
  ∃ p0 p1 p2 rest,
    raw_fields s = p0 :: p1 :: p2 :: rest
    ∧ UserID uo' = uuid_Parse p0
    ∧ OrganizationID uo' = uuid_Parse p1
    ∧ Role uo' = p2.
Proof.
  unfold UserOrganization_Scan. simpl ScanToString. cbv iota beta.
  fold (raw_fields s).
  destruct (raw_fields s) as [|p0 [|p1 [|p2 rest]]]; [done.. |].
  intros H. exists p0, p1, p2, rest. split; [done |].
  simpl in H. destruct (uuid_Parse p0), (uuid_Parse p1);
    try (injection H as <- _; done).
  destruct (String.eqb p2 EmptyString); [by injection H as <- _ |].
  destruct (slice _ 3 7); simpl in H; [| done].
  destruct (Metadata_Scan1 _ _) as [m' [e|]]; by injection H as <- _.
Qed.

End Decoders.

(** ** The array decoder's loop *)

Section Range.
Context `{D : Driver}.


Lemma UserOrganizations_Scan_range_inv uos strArray uos' :
  UserOrganizations_Scan_range uos strArray = Returned (uos', None) →
  ∃ news, Forall2 decodes_to strArray news ∧ uos' = (uos ++ news)%list.
Proof.
  revert uos. induction strArray as [|elem strArray IH]; intros uos; simpl.
  - intros [= <-]. exists []. split; [constructor | by rewrite app_nil_r].
  - destruct (UserOrganization_Scan UserOrganization_zero (IfaceString elem))
      as [[uo [err|]]|p] eqn:Hhd; simpl; [done | | done].
    intros (news & Hall & ->)%IH. exists (uo :: news).
    split; [by constructor | by rewrite <- app_assoc].
Qed.

Lemma UserOrganizations_Scan_range_error uos strArray uos' err :
  UserOrganizations_Scan_range uos strArray = Returned (uos', Some err) →
  uos `prefix_of` uos'.
Proof.
  revert uos. induction strArray as [|elem strArray IH]; intros uos; simpl; [done |].
  destruct (UserOrganization_Scan UserOrganization_zero (IfaceString elem))
    as [[uo [e|]]|p] eqn:Hhd; simpl; [| | done].
  - by intros [= <- _].
  - intros Hrest%IH. etrans; [| done]. by apply prefix_app_r.
Qed.

(** Every written membership literal is an element that decodes. *)
Corollary written_membership_decodes qo qc qu qd user org role o c u
    user_id org_id id tc tu :
  plain user = true → plain org = true → plain role = true →
  plain o = true → plain c = true → plain u = true →
  uuid_Parse user = Some user_id → uuid_Parse org = Some org_id →
  role ≠ EmptyString →
  uuid_Parse o = Some id →
  ParseTimestamp c = (tc, None) → ParseTimestamp u = (tu, None) →
  decodes_to
    (composite [user; org; role;
                field qo o; field qc c; field qu u; field qd EmptyString])
    (mkUserOrganization (Some user_id) (Some org_id) role
       (mkMetadata (Some (User_with_ID (Some id))) (mkTimeMetadata tc tu None))).
Proof.
  intros. unfold decodes_to.
  by apply (UserOrganization_Scan_written UserOrganization_zero (IfaceString _)
              qo qc qu qd user org role o c u user_id org_id id tc tu eq_refl).
Qed.

End Range.

(** ** The encoders *)

Section Encoders.
Context `{D : Driver}.

Lemma TimeMetadata_MarshalJSON_three tc tu td :
  IsZero tc = false → IsZero tu = false → IsZero td = false →
  TimeMetadata_MarshalJSON (Some (mkTimeMetadata tc tu (Some td)))
  = json_Marshal (<["deleted_at" := AnyTime td]>
                    (<["updated_at" := AnyTime tu]>
                       (<["created_at" := AnyTime tc]> ∅))).
Proof.
  intros Hc Hu Hd. unfold TimeMetadata_MarshalJSON. simpl. rewrite Hc, Hu, Hd. simpl.
  destruct (decide _) as [Hsize|_].
  - apply map_size_empty_inv in Hsize. by apply insert_non_empty in Hsize.
  - by rewrite !fmap_insert, fmap_empty.
Qed.

Lemma TimeMetadata_MarshalJSON_not_deleted tc tu :
  TimeMetadata_MarshalJSON (Some (mkTimeMetadata tc tu None)) = (None, None)
  ∨ ∃ mm : gmap string any,
      TimeMetadata_MarshalJSON (Some (mkTimeMetadata tc tu None)) = json_Marshal mm
      ∧ mm !! "deleted_at" = None.
Proof.
  unfold TimeMetadata_MarshalJSON. simpl.
  destruct (decide _) as [Hsize|_]; [by left | right].
  eexists. split; [done |].
  rewrite lookup_fmap.
  destruct (IsZero tc), (IsZero tu); simpl; by simplify_map_eq.
Qed.

Lemma TimeMetadata_MarshalJSON_empty tm :
  IsZero (CreatedAt tm) = true → IsZero (UpdatedAt tm) = true →
  DeletedAt tm = None →
  TimeMetadata_MarshalJSON (Some tm) = (None, None).
Proof.
  intros Hc Hu Hd. unfold TimeMetadata_MarshalJSON. by rewrite Hc, Hu, Hd.
Qed.

Lemma Metadata_MarshalJSON_empty m :
  Owner m = None →
  IsZero (CreatedAt (Metadata_TimeMetadata m)) = true →
  IsZero (UpdatedAt (Metadata_TimeMetadata m)) = true →
  DeletedAt (Metadata_TimeMetadata m) = None →
  Metadata_MarshalJSON m = (Some "{}", None).
Proof.
  intros Ho Hc Hu Hd. unfold Metadata_MarshalJSON. rewrite Ho, Hc, Hu, Hd. simpl.
  apply json_Marshal_empty.
Qed.

End Encoders.

(** * The claims *)

Section Claims.
Context `{D : Driver}.

(** C2, as amended.  A decode operation that fails before it assigns
    anything returns its error with the receiver unchanged: on the type of
    the input (the three composite decoders), on the field count
    ([TimeMetadata.Scan1], [Metadata.Scan1]), on the owner identifier
    ([Metadata.Scan1]) and on the outer array ([UserOrganizations.Scan]).
    When [UserOrganizations.Scan] fails at a later element, the receiver's
    previous elements are still its first elements.  Nothing is said of the
    fields assigned before a later failure. *)
Theorem decode_failure_receiver :
  (∀ tm src s err,
     ScanToString src = (s, Some err) →
     TimeMetadata_Scan1 tm src
     = (tm, Some (errors_Wrap err "invalid type for TimeMetadata scan")))
  ∧ (∀ tm src s,
     ScanToString src = (s, None) → length (raw_fields s) ≠ 3 →
     TimeMetadata_Scan1 tm src
     = (tm, Some (errors_New "invalid count for TimeMetadata scan")))
  ∧ (∀ m src s err,
     ScanToString src = (s, Some err) →
     Metadata_Scan1 m src
     = (m, Some (errors_Wrap err "invalid type for Metadata scan")))
  ∧ (∀ m src s,
     ScanToString src = (s, None) → length (raw_fields s) ≠ 4 →
     Metadata_Scan1 m src
     = (m, Some (errors_New "invalid count for Metadata scan")))
  ∧ (∀ m src s o rest,
     ScanToString src = (s, None) → composite_fields s = o :: rest →
     length rest = 3 → uuid_Parse o = None →
     Metadata_Scan1 m src
     = (m, Some (errors_New "invalid owner_id for Metadata scan")))
  ∧ (∀ uo src s err,
     ScanToString src = (s, Some err) →
     UserOrganization_Scan uo src
     = Returned (uo, Some (errors_Wrap err "invalid type for UserOrganization scan")))
  ∧ (∀ uos src strArray err,
     StringArray_Scan src = (strArray, Some err) →
     UserOrganizations_Scan uos src
     = Returned (uos, Some (errors_Wrap err "error parsing db result into string array")))
  ∧ (∀ uos src uos' err,
     UserOrganizations_Scan uos src = Returned (uos', Some err) →
     uos `prefix_of` uos').
Proof.
  repeat split.
  - apply TimeMetadata_Scan1_invalid_type.
  - apply TimeMetadata_Scan1_invalid_count.
  - apply Metadata_Scan1_invalid_type.
  - apply Metadata_Scan1_invalid_count.
  - apply Metadata_Scan1_invalid_owner.
  - apply UserOrganization_Scan_invalid_type.
  - apply UserOrganizations_Scan_invalid_array.
  - intros uos src uos' err. unfold UserOrganizations_Scan.
    destruct (StringArray_Scan src) as [strArray [e|]].
    + by intros [= <- _].
    + apply UserOrganizations_Scan_range_error.
Qed.


(** C4, as amended.  For a literal with three fields that are timestamps,
    the third not empty, and none of them the zero instant,
    [TimeMetadata.Scan1] returns no error and [TimeMetadata.MarshalJSON] of
    the result encodes exactly the three instants read, under [created_at],
    [updated_at] and [deleted_at]. *)
Theorem TimeMetadata_round_trip tm src s c u d tc tu td :
  ScanToString src = (s, None) → composite_fields s = [c; u; d] →
  d ≠ EmptyString →
  ParseTimestamp c = (tc, None) → ParseTimestamp u = (tu, None) →
  ParseTimestamp d = (td, None) →
  IsZero tc = false → IsZero tu = false → IsZero td = false →
  TimeMetadata_Scan1 tm src = (mkTimeMetadata tc tu (Some td), None)
  ∧ TimeMetadata_MarshalJSON (Some (mkTimeMetadata tc tu (Some td)))
    = json_Marshal (<["deleted_at" := AnyTime td]>
                      (<["updated_at" := AnyTime tu]>
                         (<["created_at" := AnyTime tc]> ∅))).
Proof.
  intros Hsrc Hfields Hd Hc Hu Htd Hzc Hzu Hzd. split.
  - by eapply TimeMetadata_Scan1_deleted.
  - by apply TimeMetadata_MarshalJSON_three.
Qed.

(** C5, as amended.  For a literal with three fields, the first two
    timestamps and the third empty, [TimeMetadata.Scan1] on a receiver whose
    [DeletedAt] is nil returns no error and leaves [DeletedAt] nil, and
    [TimeMetadata.MarshalJSON] of the result has no [deleted_at] key. *)
Theorem TimeMetadata_Scan1_no_deletion tm src s c u tc tu :
  ScanToString src = (s, None) → composite_fields s = [c; u; EmptyString] →
  ParseTimestamp c = (tc, None) → ParseTimestamp u = (tu, None) →
  DeletedAt tm = None →
  TimeMetadata_Scan1 tm src = (mkTimeMetadata tc tu None, None)
  ∧ (TimeMetadata_MarshalJSON (Some (mkTimeMetadata tc tu None)) = (None, None)
     ∨ ∃ mm : gmap string any,
         TimeMetadata_MarshalJSON (Some (mkTimeMetadata tc tu None)) = json_Marshal mm
         ∧ mm !! "deleted_at" = None).
Proof.
  intros Hsrc Hfields Hc Hu Hdel. split.
  - rewrite <- Hdel. by eapply TimeMetadata_Scan1_not_deleted.
  - apply TimeMetadata_MarshalJSON_not_deleted.
Qed.

(** C6, as amended.  For the literal written from an identifier, two
    timestamps and an empty fourth field, each bare or quoted,
    [Metadata.Scan1] on a receiver whose [DeletedAt] is nil returns no error;
    the owner is a user holding the identifier and nothing else, the two
    timestamps are set and [DeletedAt] is nil. *)
Theorem Metadata_Scan1_ownership m src qo qc qu qd o c u id tc tu :
  ScanToString src
  = (composite [field qo o; field qc c; field qu u; field qd EmptyString], None) →
  plain o = true → plain c = true → plain u = true →
  uuid_Parse o = Some id →
  ParseTimestamp c = (tc, None) → ParseTimestamp u = (tu, None) →
  DeletedAt (Metadata_TimeMetadata m) = None →
  Metadata_Scan1 m src
  = (mkMetadata (Some (mkUser (Some id) [] [] None Metadata_zero))
       (mkTimeMetadata tc tu None), None).
Proof.
  intros Hsrc Ho Hc Hu Hid Htc Htu Hdel. rewrite <- Hdel.
  by eapply Metadata_Scan1_written.
Qed.

(** C7, as amended.  When the timestamps are zero, there is no deletion
    timestamp and no owner, [TimeMetadata.MarshalJSON] returns the absent
    encoding (nil bytes and no error), and [Metadata.MarshalJSON] returns the
    empty JSON object. *)
Theorem MarshalJSON_of_empty_block m :
  Owner m = None →
  IsZero (CreatedAt (Metadata_TimeMetadata m)) = true →
  IsZero (UpdatedAt (Metadata_TimeMetadata m)) = true →
  DeletedAt (Metadata_TimeMetadata m) = None →
  TimeMetadata_MarshalJSON (Some (Metadata_TimeMetadata m)) = (None, None)
  ∧ Metadata_MarshalJSON m = (Some "{}", None).
Proof.
  intros Ho Hc Hu Hd. split.
  - by apply TimeMetadata_MarshalJSON_empty.
  - by apply Metadata_MarshalJSON_empty.
Qed.

(** C8, as amended.  Every composite decoder removes all the parentheses,
    opening or closing, that lead and that trail its input, and splits what
    is left on commas.  Every input is a text [s] that neither starts nor
    ends with a parenthesis, between two runs [l] and [r] of parentheses;
    the decoder trims it to [s], its fields are those of [s] split on commas,
    and it is from these that [TimeMetadata.Scan1] reads its timestamps,
    [Metadata.Scan1] its owner and [UserOrganization.Scan] its identifiers
    and role.  Adding any number of parentheses around an input changes
    neither the fields nor the result of the decoder. *)
Theorem decoders_trim_every_parenthesis tm m uo l s r :
  all_in l "()" = true → all_in r "()" = true →
  (raw_fields (l ++ s ++ r) = raw_fields s
   ∧ TimeMetadata_Scan1 tm (IfaceString (l ++ s ++ r))
     = TimeMetadata_Scan1 tm (IfaceString s)
   ∧ Metadata_Scan1 m (IfaceString (l ++ s ++ r))
     = Metadata_Scan1 m (IfaceString s)
   ∧ UserOrganization_Scan uo (IfaceString (l ++ s ++ r))
     = UserOrganization_Scan uo (IfaceString s))
  ∧ (starts_in s "()" = false → ends_in s "()" = false →
     strings_Trim (l ++ s ++ r) "()" = s
     ∧ raw_fields (l ++ s ++ r) = strings_Split s ","
     ∧ (∀ p0 p1 p2 tc tu td,
          strings_Split s "," = [p0; p1; p2] →
          ParseTimestamp (strings_Trim p0 dquote) = (tc, None) →
          ParseTimestamp (strings_Trim p1 dquote) = (tu, None) →
          strings_Trim p2 dquote ≠ EmptyString →
          ParseTimestamp (strings_Trim p2 dquote) = (td, None) →
          TimeMetadata_Scan1 tm (IfaceString (l ++ s ++ r))
          = (mkTimeMetadata tc tu (Some td), None))
     ∧ (∀ p0 p1 p2 p3 id,
          strings_Split s "," = [p0; p1; p2; p3] →
          uuid_Parse (strings_Trim p0 dquote) = Some id →
          Owner (Metadata_Scan1 m (IfaceString (l ++ s ++ r))).1
          = Some (mkUser (Some id) [] [] None Metadata_zero))
     ∧ (∀ p0 p1 p2 rest uo' err,
          strings_Split s "," = p0 :: p1 :: p2 :: rest →
          UserOrganization_Scan uo (IfaceString (l ++ s ++ r)) = Returned (uo', err) →
          UserID uo' = uuid_Parse p0 ∧ OrganizationID uo' = uuid_Parse p1
          ∧ Role uo' = p2))
  ∧ (∀ t, ∃ l' s' r',
       t = l' ++ s' ++ r'
       ∧ all_in l' "()" = true ∧ all_in r' "()" = true
       ∧ starts_in s' "()" = false ∧ ends_in s' "()" = false).
Proof.
  intros Hl Hr. split; [| split].
  - unfold raw_fields, TimeMetadata_Scan1, Metadata_Scan1, UserOrganization_Scan.
    simpl ScanToString. cbv iota beta.
    by rewrite (Trim_surrounded l s r "()" Hl Hr).
  - intros Hstart Hend.
    assert (Hfields : raw_fields (l ++ s ++ r) = strings_Split s ",").
    { unfold raw_fields. by rewrite Trim_exact. }
    split; [by apply Trim_exact |]. split; [done |]. split; [| split].
    + intros p0 p1 p2 tc tu td Hsplit Hc Hu Hne Hd.
      apply (TimeMetadata_Scan1_deleted tm (IfaceString (l ++ s ++ r)) (l ++ s ++ r)
               (strings_Trim p0 dquote) (strings_Trim p1 dquote)
               (strings_Trim p2 dquote) tc tu td); try done.
      unfold composite_fields. by rewrite Hfields, Hsplit.
    + intros p0 p1 p2 p3 id Hsplit Hid.
      rewrite (Metadata_Scan1_delegates m (IfaceString (l ++ s ++ r)) (l ++ s ++ r)
                 (strings_Trim p0 dquote)
                 [strings_Trim p1 dquote; strings_Trim p2 dquote;
                  strings_Trim p3 dquote] id); try done.
      * by destruct (TimeMetadata_Scan1 _ _).
      * unfold composite_fields. by rewrite Hfields, Hsplit.
    + intros p0 p1 p2 rest uo' err Hsplit Hret.
      destruct (UserOrganization_Scan_untrimmed uo (l ++ s ++ r) uo' err Hret)
        as (q0 & q1 & q2 & rest' & Hq & Huser & Horg & Hrole).
      rewrite Hfields, Hsplit in Hq. by simplify_eq.
  - intros t. apply text_decomposes.
Qed.

(** C10.  When [UserOrganizations.Scan] returns no error, the receiver
    holds its previous elements, unchanged and in place, followed by the
    decoded elements of the array in their order. *)
Theorem UserOrganizations_Scan_appends uos src uos' :
  UserOrganizations_Scan uos src = Returned (uos', None) →
  ∃ strArray news,
    StringArray_Scan src = (strArray, None)
    ∧ Forall2 decodes_to strArray news
    ∧ uos' = (uos ++ news)%list
    ∧ take (length uos) uos' = uos.
Proof.
  unfold UserOrganizations_Scan.
  destruct (StringArray_Scan src) as [strArray [e|]]; [done |].
  intros (news & Hall & ->)%UserOrganizations_Scan_range_inv.
  exists strArray, news. repeat split; [done |].
  by rewrite take_app_length.
Qed.

End Claims.

(** * The program on concrete literals, with the reference driver *)

Section Runs.
#[local] Existing Instance Reference.driver.

(** C1 (defect).  [UserOrganization.Scan] does not check the field count.  A
    literal with eight fields decodes without error to what its first seven
    fields hold, the eighth dropped; a literal with four fields, and one
    with a single field, end in a run-time panic and not in a returned
    error. *)
Theorem UserOrganization_Scan_field_count_unchecked :
  UserOrganization_Scan UserOrganization_zero
    (IfaceString (composite [sample_id; sample_id; "user"; sample_id;
                             sample_created; sample_updated; EmptyString; "extra"]))
  = Returned (sample_decoded "user", None)
  ∧ UserOrganization_Scan UserOrganization_zero
      (IfaceString (composite [sample_id; sample_id; "user"; sample_id]))
    = Panicked (SliceBoundsOutOfRange 7 4)
  ∧ UserOrganization_Scan UserOrganization_zero
      (IfaceString (composite [sample_id]))
    = Panicked (IndexOutOfRange 1 1).
Proof. repeat split; vm_compute; reflexivity. Qed.

(** C9 (defect).  [UserOrganization.Scan] does not trim the double quotes of
    its first three fields.  A quoted role is stored with its quotes, and a
    quoted identifier is refused. *)
Theorem UserOrganization_Scan_keeps_quotes :
  UserOrganization_Scan UserOrganization_zero
    (IfaceString (sample_membership (field true "team lead")))
  = Returned (sample_decoded (field true "team lead"), None)
  ∧ UserOrganization_Scan UserOrganization_zero
      (IfaceString (composite [field true sample_id; sample_id; "user"; sample_id;
                               sample_created; sample_updated; EmptyString]))
    = Returned (mkUserOrganization None (Some sample_id_bytes) "user" Metadata_zero,
                Some (errors_New "invalid user_id")).
Proof. repeat split; vm_compute; reflexivity. Qed.

(** C2 fails as stated.  [TimeMetadata.Scan1] reads the first timestamp into
    the receiver and then fails on the second; [UserOrganizations.Scan]
    appends the first element and then fails on the second, whose role is
    empty. *)
Lemma decode_failure_changes_receiver :
  (∃ tm' err,
     TimeMetadata_Scan1 TimeMetadata_zero
       (IfaceString (composite [sample_created; "never"; EmptyString]))
     = (tm', Some err)
     ∧ CreatedAt tm' = sample_created_time
     ∧ tm' ≠ TimeMetadata_zero)
  ∧ (∃ err,
     UserOrganizations_Scan []
       (IfaceString (array_literal [sample_membership "user";
                                    sample_membership EmptyString]))
     = Returned ([sample_decoded "user"], Some err)).
Proof.
  split.
  - eexists _, _. split; [vm_compute; reflexivity |]. split; [reflexivity | discriminate].
  - eexists. vm_compute. reflexivity.
Qed.

(** C4 fails as stated.  The third field is a timestamp and not empty, yet
    it reads as the zero instant and the encoding has no [deleted_at]. *)
Lemma zero_instant_not_round_tripped :
  Reference.ParseTimestamp "0001-01-01 00:00:00" = (Time_zero, None)
  ∧ TimeMetadata_Scan1 TimeMetadata_zero
      (IfaceString (composite [sample_created; sample_updated; "0001-01-01 00:00:00"]))
    = (mkTimeMetadata sample_created_time sample_updated_time (Some Time_zero), None)
  ∧ TimeMetadata_MarshalJSON
      (Some (mkTimeMetadata sample_created_time sample_updated_time (Some Time_zero)))
    = (Some ("{" ++ field true "created_at" ++ ":" ++ field true "2024-01-01T00:00:00Z"
             ++ "," ++ field true "updated_at" ++ ":" ++ field true "2024-01-02T00:00:00Z"
             ++ "}"), None)
  ∧ TimeMetadata_MarshalJSON
      (Some (mkTimeMetadata sample_created_time sample_updated_time (Some Time_zero)))
    ≠ json_Marshal (<["deleted_at" := AnyTime Time_zero]>
                      (<["updated_at" := AnyTime sample_updated_time]>
                         (<["created_at" := AnyTime sample_created_time]> ∅))).
Proof.
  repeat split; try (vm_compute; reflexivity).
  vm_compute. discriminate.
Qed.

(** C5 fails as stated.  On a receiver that holds a deletion time, an empty
    third field leaves that time in place, and the encoding has a
    [deleted_at]. *)
Lemma empty_field_keeps_DeletedAt :
  TimeMetadata_Scan1 used_TimeMetadata
    (IfaceString (composite [sample_created; sample_updated; EmptyString]))
  = (mkTimeMetadata sample_created_time sample_updated_time (Some sample_deleted_time),
     None)
  ∧ TimeMetadata_MarshalJSON
      (Some (mkTimeMetadata sample_created_time sample_updated_time
               (Some sample_deleted_time)))
    = (Some ("{" ++ field true "created_at" ++ ":" ++ field true "2024-01-01T00:00:00Z"
             ++ "," ++ field true "deleted_at" ++ ":" ++ field true "2024-01-03T00:00:00Z"
             ++ "," ++ field true "updated_at" ++ ":" ++ field true "2024-01-02T00:00:00Z"
             ++ "}"), None).
Proof. split; vm_compute; reflexivity. Qed.

(** C6 fails as stated.  On a receiver that holds a deletion time, the
    literal with an empty fourth field leaves that time in place. *)
Lemma ownership_keeps_DeletedAt :
  Metadata_Scan1 (mkMetadata None used_TimeMetadata)
    (IfaceString (composite [field true sample_id; field true sample_created;
                             field true sample_updated; field true EmptyString]))
  = (mkMetadata (Some (User_with_ID (Some sample_id_bytes)))
       (mkTimeMetadata sample_created_time sample_updated_time
          (Some sample_deleted_time)), None).
Proof. vm_compute. reflexivity. Qed.

(** C7 fails as stated.  [Metadata.MarshalJSON] of the zero value is the
    empty JSON object, not an absent encoding. *)
Lemma empty_Metadata_is_empty_object :
  Metadata_MarshalJSON Metadata_zero = (Some "{}", None)
  ∧ Metadata_MarshalJSON Metadata_zero ≠ (None, None).
Proof. split; [vm_compute; reflexivity | vm_compute; discriminate]. Qed.

(** C8 fails as stated.  Of two pairs of parentheses none is kept: the
    decoder reads a doubly wrapped literal as it reads the literal itself,
    while the text with one pair removed starts with a field that is no
    timestamp. *)
Lemma second_parenthesis_not_kept :
  raw_fields "((a,b))" = ["a"; "b"]
  ∧ strings_Split (strip_one_pair "((a,b))") "," = ["(a"; "b)"]
  ∧ TimeMetadata_Scan1 TimeMetadata_zero
      (IfaceString ("(" ++ composite [sample_created; sample_updated; sample_deleted]
                    ++ ")"))
    = (mkTimeMetadata sample_created_time sample_updated_time
         (Some sample_deleted_time), None)
  ∧ is_Some (Reference.ParseTimestamp ("(" ++ sample_created)).2.
Proof. repeat split; try (vm_compute; reflexivity). vm_compute. by eauto. Qed.

End Runs.

(** * The theorems at concrete inputs *)

Section Witnesses.
#[local] Existing Instance Reference.driver.

Ltac run := vm_compute; first [reflexivity | discriminate | lia].

(** C2: a literal with two fields, on a receiver that holds values. *)
Lemma decode_failure_receiver_witness :
  length (raw_fields "(a,b)") ≠ 3
  ∧ TimeMetadata_Scan1 used_TimeMetadata (IfaceString "(a,b)")
    = (used_TimeMetadata, Some (errors_New "invalid count for TimeMetadata scan")).
Proof.
  split; [run |].
  destruct (@decode_failure_receiver Reference.driver) as (_ & Hcount & _).
  apply (Hcount used_TimeMetadata (IfaceString "(a,b)") "(a,b)"); run.
Defined.


(** C4: three quoted timestamps. *)
Lemma TimeMetadata_round_trip_witness :
  TimeMetadata_Scan1 TimeMetadata_zero
    (IfaceString (composite [field true sample_created; field true sample_updated;
                             field true sample_deleted]))
  = (mkTimeMetadata sample_created_time sample_updated_time (Some sample_deleted_time),
     None)
  ∧ TimeMetadata_MarshalJSON
      (Some (mkTimeMetadata sample_created_time sample_updated_time
               (Some sample_deleted_time)))
    = json_Marshal (<["deleted_at" := AnyTime sample_deleted_time]>
                      (<["updated_at" := AnyTime sample_updated_time]>
                         (<["created_at" := AnyTime sample_created_time]> ∅))).
Proof.
  apply (TimeMetadata_round_trip (D := Reference.driver) TimeMetadata_zero _
           (composite [field true sample_created; field true sample_updated;
                       field true sample_deleted])
           sample_created sample_updated sample_deleted); run.
Defined.

(** C5: two timestamps and an empty field, on a fresh receiver. *)
Lemma TimeMetadata_Scan1_no_deletion_witness :
  TimeMetadata_Scan1 TimeMetadata_zero
    (IfaceString (composite [sample_created; sample_updated; EmptyString]))
  = (mkTimeMetadata sample_created_time sample_updated_time None, None)
  ∧ (TimeMetadata_MarshalJSON
       (Some (mkTimeMetadata sample_created_time sample_updated_time None))
     = (None, None)
     ∨ ∃ mm : gmap string any,
         TimeMetadata_MarshalJSON
           (Some (mkTimeMetadata sample_created_time sample_updated_time None))
         = json_Marshal mm
         ∧ mm !! "deleted_at" = None).
Proof.
  apply (TimeMetadata_Scan1_no_deletion (D := Reference.driver) TimeMetadata_zero _
           (composite [sample_created; sample_updated; EmptyString])
           sample_created sample_updated); run.
Defined.

(** C6: the literal of the specification's example, every field quoted. *)
Lemma Metadata_Scan1_ownership_witness :
  Metadata_Scan1 Metadata_zero
    (IfaceString (composite [field true sample_id; field true sample_created;
                             field true sample_updated; field true EmptyString]))
  = (mkMetadata (Some (mkUser (Some sample_id_bytes) [] [] None Metadata_zero))
       (mkTimeMetadata sample_created_time sample_updated_time None), None).
Proof.
  apply (Metadata_Scan1_ownership (D := Reference.driver) Metadata_zero _
           true true true true sample_id sample_created sample_updated); run.
Defined.

(** C7: the zero value. *)
Lemma MarshalJSON_of_empty_block_witness :
  TimeMetadata_MarshalJSON (Some TimeMetadata_zero) = (None, None)
  ∧ Metadata_MarshalJSON Metadata_zero = (Some "{}", None).
Proof.
  apply (MarshalJSON_of_empty_block (D := Reference.driver) Metadata_zero); run.
Defined.

(** C8: two more parentheses on each side of a timestamp literal, of an
    ownership literal and of a membership literal, each of which decodes. *)
Lemma decoders_trim_every_parenthesis_witness :
  (strings_Trim ("(((" ++ strings_Join [sample_created; sample_updated; sample_deleted] ","
                 ++ ")))") "()"
   = strings_Join [sample_created; sample_updated; sample_deleted] ","
   ∧ raw_fields ("(((" ++ strings_Join [sample_created; sample_updated; sample_deleted] ","
                 ++ ")))")
     = [sample_created; sample_updated; sample_deleted]
   ∧ TimeMetadata_Scan1 TimeMetadata_zero
       (IfaceString ("(((" ++ strings_Join [sample_created; sample_updated;
                                            sample_deleted] "," ++ ")))"))
     = (mkTimeMetadata sample_created_time sample_updated_time
          (Some sample_deleted_time), None))
  ∧ Owner (Metadata_Scan1 Metadata_zero
             (IfaceString ("(((" ++ strings_Join [sample_id; sample_created;
                                                  sample_updated; sample_deleted] ","
                           ++ ")))"))).1
    = Some (mkUser (Some sample_id_bytes) [] [] None Metadata_zero)
  ∧ (UserOrganization_Scan UserOrganization_zero
       (IfaceString ("(((" ++ strings_Join [sample_id; sample_id; "user"; sample_id;
                                            sample_created; sample_updated;
                                            EmptyString] "," ++ ")))"))
     = Returned (sample_decoded "user", None)
     ∧ UserID (sample_decoded "user") = uuid_Parse sample_id
     ∧ OrganizationID (sample_decoded "user") = uuid_Parse sample_id
     ∧ Role (sample_decoded "user") = "user")
  ∧ UserOrganization_Scan UserOrganization_zero
      (IfaceString ("((" ++ sample_membership "user" ++ "))"))
    = UserOrganization_Scan UserOrganization_zero
        (IfaceString (sample_membership "user")).
Proof.
  split; [| split; [| split]].
  - destruct (decoders_trim_every_parenthesis (D := Reference.driver)
                TimeMetadata_zero Metadata_zero UserOrganization_zero "((("
                (strings_Join [sample_created; sample_updated; sample_deleted] ",")
                ")))") as (_ & Hbody & _); [run | run |].
    destruct Hbody as (Htrim & Hfields & Htime & _); [run | run |].
    split; [exact Htrim |]. split; [exact Hfields |].
    apply (Htime sample_created sample_updated sample_deleted); run.
  - destruct (decoders_trim_every_parenthesis (D := Reference.driver)
                TimeMetadata_zero Metadata_zero UserOrganization_zero "((("
                (strings_Join [sample_id; sample_created; sample_updated;
                               sample_deleted] ",")
                ")))") as (_ & Hbody & _); [run | run |].
    destruct Hbody as (_ & _ & _ & Howner & _); [run | run |].
    apply (Howner sample_id sample_created sample_updated sample_deleted); run.
  - destruct (decoders_trim_every_parenthesis (D := Reference.driver)
                TimeMetadata_zero Metadata_zero UserOrganization_zero "((("
                (strings_Join [sample_id; sample_id; "user"; sample_id;
                               sample_created; sample_updated; EmptyString] ",")
                ")))") as (_ & Hbody & _); [run | run |].
    destruct Hbody as (_ & _ & _ & _ & Hmember); [run | run |].
    split; [run |].
    apply (Hmember sample_id sample_id "user"
             [sample_id; sample_created; sample_updated; EmptyString]
             (sample_decoded "user") None); run.
  - destruct (decoders_trim_every_parenthesis (D := Reference.driver)
                TimeMetadata_zero Metadata_zero UserOrganization_zero "(("
                (sample_membership "user") "))") as ((_ & _ & _ & Hsame) & _);
      [run | run |].
    exact Hsame.
Defined.

(** C10: an array of two memberships, on a receiver that holds one. *)
Lemma UserOrganizations_Scan_appends_witness :
  ∃ strArray news,
    StringArray_Scan
      (IfaceString (array_literal [sample_membership "user"; sample_membership "admin"]))
    = (strArray, None)
    ∧ Forall2 decodes_to strArray news
    ∧ [sample_decoded "owner"; sample_decoded "user"; sample_decoded "admin"]
      = ([sample_decoded "owner"] ++ news)%list
    ∧ take (length [sample_decoded "owner"])
        [sample_decoded "owner"; sample_decoded "user"; sample_decoded "admin"]
      = [sample_decoded "owner"].
Proof.
  apply (UserOrganizations_Scan_appends (D := Reference.driver)
           [sample_decoded "owner"]
           (IfaceString (array_literal [sample_membership "user";
                                        sample_membership "admin"]))).
  run.
Defined.

(** The encodings of the decoded samples, as text. *)
Example round_trip_text :
  TimeMetadata_MarshalJSON
    (Some (mkTimeMetadata sample_created_time sample_updated_time
             (Some sample_deleted_time)))
  = (Some ("{" ++ field true "created_at" ++ ":" ++ field true "2024-01-01T00:00:00Z"
           ++ "," ++ field true "deleted_at" ++ ":" ++ field true "2024-01-03T00:00:00Z"
           ++ "," ++ field true "updated_at" ++ ":" ++ field true "2024-01-02T00:00:00Z"
           ++ "}"), None).
Proof. run. Qed.

Example ownership_text :
  Metadata_MarshalJSON
    (mkMetadata (Some (User_with_ID (Some sample_id_bytes)))
       (mkTimeMetadata sample_created_time sample_updated_time None))
  = (Some ("{" ++ field true "created_at" ++ ":" ++ field true "2024-01-01T00:00:00Z"
           ++ "," ++ field true "owner_id" ++ ":" ++ field true sample_id
           ++ "," ++ field true "updated_at" ++ ":" ++ field true "2024-01-02T00:00:00Z"
           ++ "}"), None).
Proof. run. Qed.

End Witnesses.

(** * Further properties of the decoders and encoders *)

(** ** [TimeMetadata.Scan1] *)

Section TimeMetadataScan.
Context `{D : Driver}.

Lemma length_raw_fields s : length (raw_fields s) = length (composite_fields s).
Proof. unfold composite_fields. by rewrite length_fmap. Qed.

(** The decoder as a function of the fields it reads. *)
Lemma TimeMetadata_Scan1_fields tm src s c u d :
  ScanToString src = (s, None) → composite_fields s = [c; u; d] →
  TimeMetadata_Scan1 tm src
  = let '(tc, e1) := ParseTimestamp c in
    match e1 with
    | Some e =>
        (mkTimeMetadata tc (UpdatedAt tm) (DeletedAt tm),
         Some (errors_Wrap e "error parsing created_at"))
    | None =>
        let '(tu, e2) := ParseTimestamp u in
        match e2 with
        | Some e =>
            (mkTimeMetadata tc tu (DeletedAt tm),
             Some (errors_Wrap e "error parsing updated_at"))
        | None =>
            if String.eqb d EmptyString then (mkTimeMetadata tc tu (DeletedAt tm), None)
            else
              let '(td, e3) := ParseTimestamp d in
              match e3 with
              | Some e =>
                  (mkTimeMetadata tc tu (DeletedAt tm),
                   Some (errors_Wrap e "error parsing deleted_at"))
              | None => (mkTimeMetadata tc tu (Some td), None)
              end
        end
    end.
Proof.
  intros Hsrc Hfields. unfold TimeMetadata_Scan1. rewrite Hsrc.
  fold (raw_fields s). fold (composite_fields s).
  rewrite length_raw_fields, Hfields. simpl.
  destruct (ParseTimestamp c) as [tc [e1|]]; [done |].
  destruct (ParseTimestamp u) as [tu [e2|]]; [done |]. simpl.
  destruct (String.eqb d EmptyString); [done |]. simpl.
  by destruct (ParseTimestamp d) as [td [e3|]].
Qed.

(** Either the type or the count is refused, or there are three fields. *)
Lemma TimeMetadata_Scan1_cases tm src :
  (∃ s err, ScanToString src = (s, Some err)
     ∧ TimeMetadata_Scan1 tm src
       = (tm, Some (errors_Wrap err "invalid type for TimeMetadata scan")))
  ∨ (∃ s, ScanToString src = (s, None) ∧ length (composite_fields s) ≠ 3
     ∧ TimeMetadata_Scan1 tm src
       = (tm, Some (errors_New "invalid count for TimeMetadata scan")))
  ∨ (∃ s c u d, ScanToString src = (s, None) ∧ composite_fields s = [c; u; d]).
Proof.
  destruct (ScanToString src) as [s [err|]] eqn:Hsrc.
  - left. exists s, err. split; [done |]. by eapply TimeMetadata_Scan1_invalid_type.
  - right. destruct (decide (length (composite_fields s) = 3)) as [Hlen|Hlen].
    + right. exists s.
      destruct (composite_fields s) as [|c [|u [|d [|? ?]]]]; simplify_eq/=.
      by exists c, u, d.
    + left. exists s. split; [done |]. split; [done |].
      eapply TimeMetadata_Scan1_invalid_count; [done |]. by rewrite length_raw_fields.
Qed.

(** X1.  [TimeMetadata.Scan1] returns no error exactly when its input is
    text or bytes that read as three fields, the first two are timestamps
    and the third is empty or a timestamp; the receiver then holds the two
    timestamps, and the third when it is not empty, its [DeletedAt]
    untouched otherwise. *)
Theorem TimeMetadata_Scan1_succeeds_iff tm src tm' :
  TimeMetadata_Scan1 tm src = (tm', None)
  ↔ ∃ s c u d tc tu,
      ScanToString src = (s, None) ∧ composite_fields s = [c; u; d]
      ∧ ParseTimestamp c = (tc, None) ∧ ParseTimestamp u = (tu, None)
      ∧ ((d = EmptyString ∧ tm' = mkTimeMetadata tc tu (DeletedAt tm))
         ∨ (d ≠ EmptyString
            ∧ ∃ td, ParseTimestamp d = (td, None)
                    ∧ tm' = mkTimeMetadata tc tu (Some td))).
Proof.
  split.
  - destruct (TimeMetadata_Scan1_cases tm src)
      as [(s & err & _ & ->)|[(s & _ & _ & ->)|(s & c & u & d & Hsrc & Hfields)]];
      [done | done |].
    rewrite (TimeMetadata_Scan1_fields tm src s c u d Hsrc Hfields).
    destruct (ParseTimestamp c) as [tc [e1|]] eqn:Hc; [done |].
    destruct (ParseTimestamp u) as [tu [e2|]] eqn:Hu; [done |].
    destruct (String.eqb_spec d EmptyString) as [->|Hd].
    + intros [= <-]. exists s, c, u, EmptyString, tc, tu. repeat split; try done.
      by left.
    + destruct (ParseTimestamp d) as [td [e3|]] eqn:Htd; [done |].
      intros [= <-]. exists s, c, u, d, tc, tu. repeat split; try done.
      right. split; [done |]. by exists td.
  - intros (s & c & u & d & tc & tu & Hsrc & Hfields & Hc & Hu & Hd).
    rewrite (TimeMetadata_Scan1_fields tm src s c u d Hsrc Hfields), Hc, Hu.
    destruct Hd as [[-> ->]|(Hd & td & Htd & ->)]; [done |].
    apply String.eqb_neq in Hd as ->. by rewrite Htd.
Qed.

(** X2.  When a timestamp of a three-field literal is refused, the error
    is the parser's, wrapped with the name of the field, and the receiver
    holds what was assigned until then: the parser's value for the refused
    created or updated field, the earlier fields as read, and the previous
    [DeletedAt].  The fields after the refused one are not read. *)
Theorem TimeMetadata_Scan1_timestamp_failure tm src s c u d :
  ScanToString src = (s, None) → composite_fields s = [c; u; d] →
  (∀ tc e, ParseTimestamp c = (tc, Some e) →
     TimeMetadata_Scan1 tm src
     = (mkTimeMetadata tc (UpdatedAt tm) (DeletedAt tm),
        Some (errors_Wrap e "error parsing created_at")))
  ∧ (∀ tc tu e, ParseTimestamp c = (tc, None) → ParseTimestamp u = (tu, Some e) →
     TimeMetadata_Scan1 tm src
     = (mkTimeMetadata tc tu (DeletedAt tm),
        Some (errors_Wrap e "error parsing updated_at")))
  ∧ (∀ tc tu td e, ParseTimestamp c = (tc, None) → ParseTimestamp u = (tu, None) →
     d ≠ EmptyString → ParseTimestamp d = (td, Some e) →
     TimeMetadata_Scan1 tm src
     = (mkTimeMetadata tc tu (DeletedAt tm),
        Some (errors_Wrap e "error parsing deleted_at"))).
Proof.
  intros Hsrc Hfields.
  rewrite (TimeMetadata_Scan1_fields tm src s c u d Hsrc Hfields).
  repeat split.
  - by intros tc e ->.
  - by intros tc tu e -> ->.
  - intros tc tu td e -> -> Hd ->. by apply String.eqb_neq in Hd as ->.
Qed.

(** X3.  [TimeMetadata.Scan1] never clears a deletion time: a receiver that
    holds one holds one afterwards, and after a returned error [DeletedAt]
    is what it was. *)
Theorem TimeMetadata_Scan1_keeps_DeletedAt tm src tm' err :
  TimeMetadata_Scan1 tm src = (tm', err) →
  (is_Some (DeletedAt tm) → is_Some (DeletedAt tm'))
  ∧ (is_Some err → DeletedAt tm' = DeletedAt tm).
Proof.
  destruct (TimeMetadata_Scan1_cases tm src)
    as [(s & e & _ & ->)|[(s & _ & _ & ->)|(s & c & u & d & Hsrc & Hfields)]];
    [by intros [= <- <-].. |].
  rewrite (TimeMetadata_Scan1_fields tm src s c u d Hsrc Hfields).
  destruct (ParseTimestamp c) as [tc [e1|]]; [by intros [= <- <-] |].
  destruct (ParseTimestamp u) as [tu [e2|]]; [by intros [= <- <-] |].
  destruct (String.eqb d EmptyString).
  - intros [= <- <-]. split; [done | by intros [? [=]]].
  - destruct (ParseTimestamp d) as [td [e3|]]; intros [= <- <-]; [done |].
    split; [by eauto | by intros [? [=]]].
Qed.

Lemma TimeMetadata_Scan1_again tm src :
  TimeMetadata_Scan1 (TimeMetadata_Scan1 tm src).1 src = TimeMetadata_Scan1 tm src.
Proof.
  destruct (TimeMetadata_Scan1_cases tm src)
    as [(s & e & Hsrc & Heq)|[(s & Hsrc & Hlen & Heq)|(s & c & u & d & Hsrc & Hfields)]].
  - rewrite Heq. simpl. by eapply TimeMetadata_Scan1_invalid_type.
  - rewrite Heq. simpl. eapply TimeMetadata_Scan1_invalid_count; [done |].
    by rewrite length_raw_fields.
  - rewrite !(TimeMetadata_Scan1_fields _ src s c u d Hsrc Hfields).
    destruct (ParseTimestamp c) as [tc [e1|]]; [done |].
    destruct (ParseTimestamp u) as [tu [e2|]]; [done |].
    destruct (String.eqb d EmptyString); [done |].
    by destruct (ParseTimestamp d) as [td [e3|]].
Qed.

Lemma TimeMetadata_Scan1_error_any_receiver tm1 tm2 src :
  (TimeMetadata_Scan1 tm1 src).2 = (TimeMetadata_Scan1 tm2 src).2.
Proof.
  destruct (TimeMetadata_Scan1_cases tm1 src)
    as [(s & e & Hsrc & Heq)|[(s & Hsrc & Hlen & Heq)|(s & c & u & d & Hsrc & Hfields)]].
  - by rewrite Heq, (TimeMetadata_Scan1_invalid_type tm2 src s e Hsrc).
  - rewrite Heq, (TimeMetadata_Scan1_invalid_count tm2 src s Hsrc); [done |].
    by rewrite length_raw_fields.
  - rewrite !(TimeMetadata_Scan1_fields _ src s c u d Hsrc Hfields).
    destruct (ParseTimestamp c) as [tc [e1|]]; [done |].
    destruct (ParseTimestamp u) as [tu [e2|]]; [done |].
    destruct (String.eqb d EmptyString); [done |].
    by destruct (ParseTimestamp d) as [td [e3|]].
Qed.

End TimeMetadataScan.

(** ** [Metadata.Scan1] *)

Section MetadataScan.
Context `{D : Driver}.

Lemma Metadata_Scan1_cases m src :
  (∃ s err, ScanToString src = (s, Some err))
  ∨ (∃ s, ScanToString src = (s, None) ∧ length (composite_fields s) ≠ 4)
  ∨ (∃ s o rest, ScanToString src = (s, None) ∧ composite_fields s = o :: rest
       ∧ length rest = 3 ∧ uuid_Parse o = None)
  ∨ (∃ s o rest id, ScanToString src = (s, None) ∧ composite_fields s = o :: rest
       ∧ length rest = 3 ∧ uuid_Parse o = Some id
       ∧ Metadata_Scan1 m src
         = let '(tm, err) :=
             TimeMetadata_Scan1 (Metadata_TimeMetadata m) (IfaceString (composite rest)) in
           (mkMetadata (Some (User_with_ID (Some id))) tm, err)).
Proof.
  destruct (ScanToString src) as [s [err|]] eqn:Hsrc; [left; by eauto |].
  right. destruct (decide (length (composite_fields s) = 4)) as [Hlen|Hlen];
    [| left; by eauto].
  right. destruct (composite_fields s) as [|o rest] eqn:Hfields; [done |].
  simpl in Hlen. destruct (uuid_Parse o) as [id|] eqn:Ho.
  - right. exists s, o, rest, id. repeat split; try done; [lia |].
    apply (Metadata_Scan1_delegates m src s o rest id); try done. lia.
  - left. exists s, o, rest. repeat split; try done. lia.
Qed.

Lemma Scan1_only_composite_fields tm m s s' :
  composite_fields s = composite_fields s' →
  TimeMetadata_Scan1 tm (IfaceString s) = TimeMetadata_Scan1 tm (IfaceString s')
  ∧ Metadata_Scan1 m (IfaceString s) = Metadata_Scan1 m (IfaceString s').
Proof.
  intros H. unfold TimeMetadata_Scan1, Metadata_Scan1. simpl ScanToString.
  cbv iota beta. fold (raw_fields s) (raw_fields s').
  fold (composite_fields s) (composite_fields s').
  by rewrite !length_raw_fields, H.
Qed.

Lemma written_bare (xs : list string) :
  zip_with field (replicate (length xs) false) xs = xs.
Proof. induction xs as [|x xs IH]; simpl; [done | by rewrite IH]. Qed.

(** X4.  In a literal read by [TimeMetadata.Scan1] or [Metadata.Scan1] it
    makes no difference which fields are written between double quotes:
    the result, error included, is that of the literal with every field
    bare. *)
Theorem Scan1_quotes_irrelevant tm m (qs : list bool) (xs : list string) :
  length qs = length xs →
  Forall (λ x, plain x = true) xs →
  TimeMetadata_Scan1 tm (IfaceString (composite (zip_with field qs xs)))
  = TimeMetadata_Scan1 tm (IfaceString (composite xs))
  ∧ Metadata_Scan1 m (IfaceString (composite (zip_with field qs xs)))
    = Metadata_Scan1 m (IfaceString (composite xs)).
Proof.
  intros Hlen Hplain. destruct xs as [|x xs].
  { by destruct qs. }
  apply Scan1_only_composite_fields.
  rewrite composite_fields_written by done.
  rewrite <- (written_bare (x :: xs)) at 2.
  rewrite composite_fields_written; [done | done | | done].
  by rewrite length_replicate.
Qed.

(** X5.  On a literal written from an identifier and three further fields,
    [Metadata.Scan1] sets the owner to a user that holds the identifier only,
    and for the rest does what [TimeMetadata.Scan1] does on the literal of
    the three fields: its error, if any, is returned as it is, with the
    owner already replaced. *)
Theorem Metadata_Scan1_written_delegates m src qo qc qu qd o c u d id :
  ScanToString src
  = (composite [field qo o; field qc c; field qu u; field qd d], None) →
  plain o = true → plain c = true → plain u = true → plain d = true →
  uuid_Parse o = Some id →
  Metadata_Scan1 m src
  = ((mkMetadata (Some (mkUser (Some id) [] [] None Metadata_zero))
        (TimeMetadata_Scan1 (Metadata_TimeMetadata m)
           (IfaceString (composite [c; u; d]))).1),
     (TimeMetadata_Scan1 (Metadata_TimeMetadata m)
        (IfaceString (composite [c; u; d]))).2).
Proof.
  intros Hsrc Ho Hc Hu Hd Hid.
  rewrite (Metadata_Scan1_delegates m src _ o [c; u; d] id Hsrc); [| | done | done].
  - by destruct (TimeMetadata_Scan1 _ _).
  - apply (composite_fields_written [qo; qc; qu; qd] [o; c; u; d]);
      [done | done | by repeat constructor].
Qed.

(** X6.  Decoding the same input a second time into the receiver that the
    first decode left changes nothing, whether the decode succeeds or fails:
    [TimeMetadata.Scan1] and [Metadata.Scan1] are idempotent. *)
Theorem Scan1_idempotent tm m src :
  TimeMetadata_Scan1 (TimeMetadata_Scan1 tm src).1 src = TimeMetadata_Scan1 tm src
  ∧ Metadata_Scan1 (Metadata_Scan1 m src).1 src = Metadata_Scan1 m src.
Proof.
  split; [apply TimeMetadata_Scan1_again |].
  destruct (Metadata_Scan1_cases m src)
    as [(s & e & Hsrc)|[(s & Hsrc & Hlen)|[(s & o & rest & Hsrc & Hf & Hlen & Ho)
        |(s & o & rest & id & Hsrc & Hf & Hlen & Ho & Heq)]]].
  - by rewrite !(Metadata_Scan1_invalid_type _ src s e Hsrc).
  - rewrite !(Metadata_Scan1_invalid_count _ src s Hsrc); [done | |];
      by rewrite length_raw_fields.
  - by rewrite !(Metadata_Scan1_invalid_owner _ src s o rest Hsrc Hf Hlen Ho).
  - rewrite Heq, (Metadata_Scan1_delegates _ src s o rest id Hsrc Hf Hlen Ho).
    destruct (TimeMetadata_Scan1 (Metadata_TimeMetadata m) _) as [tm1 err] eqn:H1.
    simpl. pose proof (TimeMetadata_Scan1_again (Metadata_TimeMetadata m)
                         (IfaceString (composite rest))) as Hagain.
    rewrite H1 in Hagain. simpl in Hagain. by rewrite Hagain.
Qed.

(** X7.  A written ownership literal with an empty fourth field, whose
    timestamps are not the zero instant, decoded into a fresh receiver and
    then encoded with [Metadata.MarshalJSON], gives the encoding of the map
    that holds exactly [owner_id], [created_at] and [updated_at]. *)
Theorem Metadata_decode_encode src qo qc qu qd o c u id tc tu :
  ScanToString src
  = (composite [field qo o; field qc c; field qu u; field qd EmptyString], None) →
  plain o = true → plain c = true → plain u = true →
  uuid_Parse o = Some id →
  ParseTimestamp c = (tc, None) → ParseTimestamp u = (tu, None) →
  IsZero tc = false → IsZero tu = false →
  (Metadata_Scan1 Metadata_zero src).2 = None
  ∧ Metadata_MarshalJSON (Metadata_Scan1 Metadata_zero src).1
    = json_Marshal (<["updated_at" := AnyTime tu]>
                      (<["created_at" := AnyTime tc]>
                         (<["owner_id" := AnyUUID (Some id)]> ∅))).
Proof.
  intros Hsrc Ho Hc Hu Hid Htc Htu Hzc Hzu.
  rewrite (Metadata_Scan1_written Metadata_zero src qo qc qu qd o c u id tc tu)
    by done.
  split; [done |]. unfold Metadata_MarshalJSON. simpl. by rewrite Hzc, Hzu.
Qed.

End MetadataScan.

(** ** The field count and the receiver *)

Section Counting.
Context `{D : Driver}.

Lemma length_Split s c : length (strings_Split s c) = S (count_byte c s).
Proof.
  induction s as [|d s IH]; simpl; [done |].
  destruct (Ascii.eqb d c); simpl; [by rewrite IH |].
  destruct (strings_Split s c); simpl in *; lia.
Qed.

Lemma length_raw_fields_commas s :
  length (raw_fields s) = S (count_byte "," (strings_Trim s "()")).
Proof. apply length_Split. Qed.

(** X8.  The field count is the number of commas plus one, in or out of
    double quotes: [TimeMetadata.Scan1] returns its count error exactly when
    the text between the parentheses does not hold two commas, and
    [Metadata.Scan1] exactly when it does not hold three. *)
Theorem invalid_count_iff tm m s :
  (TimeMetadata_Scan1 tm (IfaceString s)
   = (tm, Some (errors_New "invalid count for TimeMetadata scan"))
   ↔ count_byte "," (strings_Trim s "()") ≠ 2)
  ∧ (Metadata_Scan1 m (IfaceString s)
     = (m, Some (errors_New "invalid count for Metadata scan"))
     ↔ count_byte "," (strings_Trim s "()") ≠ 3).
Proof.
  split; split.
  - intros Heq Hcount.
    destruct (TimeMetadata_Scan1_cases tm (IfaceString s))
      as [(s' & e & [=] & _)|[(s' & [= <-] & Hlen & _)
         |(s' & c & u & d & [= <-] & Hfields)]].
    + rewrite <- length_raw_fields, length_raw_fields_commas in Hlen. lia.
    + rewrite (TimeMetadata_Scan1_fields tm (IfaceString s) s c u d eq_refl Hfields) in Heq.
      destruct (ParseTimestamp c) as [tc [e1|]]; [done |].
      destruct (ParseTimestamp u) as [tu [e2|]]; [done |].
      destruct (String.eqb d EmptyString); [done |].
      by destruct (ParseTimestamp d) as [td [e3|]].
  - intros Hcount. apply (TimeMetadata_Scan1_invalid_count tm (IfaceString s) s eq_refl).
    rewrite length_raw_fields_commas. lia.
  - intros Heq Hcount.
    destruct (Metadata_Scan1_cases m (IfaceString s))
      as [(s' & e & [=])|[(s' & [= <-] & Hlen)
         |[(s' & o & rest & [= <-] & Hf & Hlen & Ho)
          |(s' & o & rest & id & [= <-] & Hf & Hlen & Ho & Hdel)]]].
    + rewrite <- length_raw_fields, length_raw_fields_commas in Hlen. lia.
    + by rewrite (Metadata_Scan1_invalid_owner m (IfaceString s) s o rest eq_refl Hf Hlen Ho) in Heq.
    + rewrite Hdel in Heq. clear Hdel.
      destruct (TimeMetadata_Scan1_cases (Metadata_TimeMetadata m)
                  (IfaceString (composite rest)))
        as [(s' & e & [=] & _)|[(s' & _ & _ & Hcnt)
           |(s' & c & u & d & [= <-] & Hfields)]].
      * by rewrite Hcnt in Heq.
      * rewrite (TimeMetadata_Scan1_fields _ (IfaceString (composite rest)) _ c u d eq_refl Hfields) in Heq.
        destruct (ParseTimestamp c) as [tc [e1|]]; [done |].
        destruct (ParseTimestamp u) as [tu [e2|]]; [done |].
        destruct (String.eqb d EmptyString); [done |].
        by destruct (ParseTimestamp d) as [td [e3|]].
  - intros Hcount. apply (Metadata_Scan1_invalid_count m (IfaceString s) s eq_refl).
    rewrite length_raw_fields_commas. lia.
Qed.

(** X9.  Whether a decode fails, and with which error, does not depend on
    the receiver: for [TimeMetadata.Scan1], [Metadata.Scan1] and
    [UserOrganization.Scan] two receivers give the same error, or both no
    error, or both the same panic. *)
Theorem error_any_receiver src :
  (∀ tm1 tm2, (TimeMetadata_Scan1 tm1 src).2 = (TimeMetadata_Scan1 tm2 src).2)
  ∧ (∀ m1 m2, (Metadata_Scan1 m1 src).2 = (Metadata_Scan1 m2 src).2)
  ∧ (∀ uo1 uo2,
       (∃ p, UserOrganization_Scan uo1 src = Panicked p
             ∧ UserOrganization_Scan uo2 src = Panicked p)
       ∨ (∃ uo1' uo2' err,
            UserOrganization_Scan uo1 src = Returned (uo1', err)
            ∧ UserOrganization_Scan uo2 src = Returned (uo2', err))).
Proof.
  assert (HM : ∀ src m1 m2, (Metadata_Scan1 m1 src).2 = (Metadata_Scan1 m2 src).2).
  { clear src. intros src m1 m2.
    destruct (Metadata_Scan1_cases m1 src)
      as [(s & e & Hsrc)|[(s & Hsrc & Hlen)|[(s & o & rest & Hsrc & Hf & Hlen & Ho)
          |(s & o & rest & id & Hsrc & Hf & Hlen & Ho & _)]]].
    - by rewrite !(Metadata_Scan1_invalid_type _ src s e Hsrc).
    - rewrite !(Metadata_Scan1_invalid_count _ src s Hsrc); [done | |];
        by rewrite length_raw_fields.
    - by rewrite !(Metadata_Scan1_invalid_owner _ src s o rest Hsrc Hf Hlen Ho).
    - rewrite !(Metadata_Scan1_delegates _ src s o rest id Hsrc Hf Hlen Ho).
      pose proof (TimeMetadata_Scan1_error_any_receiver
                    (Metadata_TimeMetadata m1) (Metadata_TimeMetadata m2)
                    (IfaceString (composite rest))) as Herr.
      by do 2 destruct (TimeMetadata_Scan1 _ _). }
  split; [intros tm1 tm2; apply TimeMetadata_Scan1_error_any_receiver |].
  split; [intros m1 m2; apply HM |].
  intros uo1 uo2. unfold UserOrganization_Scan.
  destruct (ScanToString src) as [s [e|]]; [right; by eauto |].
  fold (raw_fields s).
  destruct (raw_fields s) as [|p0 [|p1 [|p2 rest]]]; [left; by eauto.. |].
  simpl. destruct (uuid_Parse p0); [| right; by eauto].
  destruct (uuid_Parse p1); [| right; by eauto].
  destruct (String.eqb p2 EmptyString); [right; by eauto |].
  destruct (slice _ 3 7) as [ps|p]; simpl; [| left; by eauto].
  pose proof (HM (IfaceString ("(" ++ strings_Join ps "," ++ ")"))
                (UserOrganization_Metadata uo1) (UserOrganization_Metadata uo2)) as Herr.
  destruct (Metadata_Scan1 (UserOrganization_Metadata uo1) _) as [m1' [e1|]],
    (Metadata_Scan1 (UserOrganization_Metadata uo2) _) as [m2' [e2|]];
    simplify_eq/=; right; by eauto.
Qed.

End Counting.

(** ** [UserOrganization.Scan] *)

Section UserOrganizationScan.
Context `{D : Driver}.

(** The decoder as a function of the fields it splits its input into. *)
Lemma UserOrganization_Scan_fields uo src s p0 p1 p2 rest :
  ScanToString src = (s, None) → raw_fields s = p0 :: p1 :: p2 :: rest →
  UserOrganization_Scan uo src
  = let assigned :=
      mkUserOrganization (uuid_Parse p0) (uuid_Parse p1) p2
        (UserOrganization_Metadata uo) in
    match uuid_Parse p0, uuid_Parse p1 with
    | None, _ => Returned (assigned, Some (errors_New "invalid user_id"))
    | Some _, None => Returned (assigned, Some (errors_New "invalid organization_id"))
    | Some _, Some _ =>
        if String.eqb p2 EmptyString
        then Returned (assigned, Some (errors_New "invalid user_role"))
        else
          match rest with
          | p3 :: p4 :: p5 :: p6 :: _ =>
              let '(m, err) :=
                Metadata_Scan1 (UserOrganization_Metadata uo)
                  (IfaceString (composite [p3; p4; p5; p6])) in
              Returned
                (mkUserOrganization (uuid_Parse p0) (uuid_Parse p1) p2 m,
                 match err with
                 | Some e =>
                     Some (errors_Wrap e "error scan TimeMetadata for UserOrganization")
                 | None => None
                 end)
          | _ => Panicked (SliceBoundsOutOfRange 7 (3 + length rest))
          end
    end.
Proof.
  intros Hsrc Hfields. unfold UserOrganization_Scan. rewrite Hsrc.
  fold (raw_fields s). rewrite Hfields. simpl.
  destruct (uuid_Parse p0) as [uid|]; [| done].
  destruct (uuid_Parse p1) as [oid|]; [| done].
  destruct (String.eqb p2 EmptyString); [done |].
  destruct rest as [|p3 [|p4 [|p5 [|p6 extra]]]]; try reflexivity.
  unfold slice. simpl length. rewrite decide_True by lia. simpl.
  change ("(" ++ (p3 ++ String "," (p4 ++ String "," (p5 ++ String "," p6))) ++ ")")
    with (composite [p3; p4; p5; p6]).
  by destruct (Metadata_Scan1 _ _) as [m [e|]].
Qed.

Lemma UserOrganization_Scan_few_fields uo src s :
  ScanToString src = (s, None) → (length (raw_fields s) < 3)%nat →
  ∃ p, UserOrganization_Scan uo src = Panicked p.
Proof.
  intros Hsrc Hlen. unfold UserOrganization_Scan. rewrite Hsrc.
  fold (raw_fields s).
  destruct (raw_fields s) as [|p0 [|p1 [|p2 rest]]]; simpl in Hlen; try lia;
    eexists; reflexivity.
Qed.

(** X10.  [UserOrganization.Scan] panics exactly when its input is text or
    bytes that split into fewer than three fields, or into fewer than seven
    of which the first two are identifiers and the third is not empty.  With
    seven fields or more it never panics. *)
Theorem UserOrganization_Scan_panics_iff uo src :
  (∃ p, UserOrganization_Scan uo src = Panicked p)
  ↔ ∃ s, ScanToString src = (s, None)
         ∧ ((length (raw_fields s) < 3)%nat
            ∨ ((length (raw_fields s) < 7)%nat
               ∧ ∃ p0 p1 p2 rest,
                   raw_fields s = p0 :: p1 :: p2 :: rest
                   ∧ is_Some (uuid_Parse p0) ∧ is_Some (uuid_Parse p1)
                   ∧ p2 ≠ EmptyString)).
Proof.
  destruct (ScanToString src) as [s [e|]] eqn:Hsrc.
  { rewrite (UserOrganization_Scan_invalid_type uo src s e Hsrc).
    split; [by intros [? ?] | by intros (? & [=] & _)]. }
  destruct (raw_fields s) as [|p0 [|p1 [|p2 rest]]] eqn:Hfields.
  1-3: split; [intros _; exists s; split; [done |]; left; rewrite Hfields; simpl; lia |];
       intros _; apply (UserOrganization_Scan_few_fields uo src s Hsrc);
       rewrite Hfields; simpl; lia.
  rewrite (UserOrganization_Scan_fields uo src s p0 p1 p2 rest Hsrc Hfields).
  cbv zeta. split.
  - intros [p Hp]. exists s. split; [done |]. right.
    destruct (uuid_Parse p0) as [uid|] eqn:H0; [| done].
    destruct (uuid_Parse p1) as [oid|] eqn:H1; [| done].
    destruct (String.eqb_spec p2 EmptyString) as [->|H2]; [done |].
    rewrite Hfields.
    destruct rest as [|p3 [|p4 [|p5 [|p6 extra]]]];
      try (split; [simpl; lia |]; exists p0, p1, p2; eexists;
           rewrite H0, H1; by eauto).
    by destruct (Metadata_Scan1 _ _).
  - intros (s' & [= <-] & [Hlen|(Hlen & q0 & q1 & q2 & rest' & Hf & H0 & H1 & H2)]).
    { rewrite Hfields in Hlen. simpl in Hlen. lia. }
    rewrite Hfields in Hf, Hlen. simplify_eq.
    destruct H0 as [uid ->], H1 as [oid ->].
    apply String.eqb_neq in H2 as ->.
    destruct rest' as [|p3 [|p4 [|p5 [|p6 extra]]]]; try by eauto.
    simpl in Hlen. lia.
Qed.

(** X11.  With three fields or more, [UserOrganization.Scan] assigns the two
    identifiers and the role as split and then checks them in this order: a
    text that is no user identifier gives invalid user_id, else one that is
    no organization identifier gives invalid organization_id, else an empty
    role gives invalid user_role.  The receiver then holds the three
    assigned values and its previous metadata; the fields after the third
    are not looked at, so that a literal too short for its metadata is
    refused here without a panic. *)
Theorem UserOrganization_Scan_validation uo src s p0 p1 p2 rest :
  ScanToString src = (s, None) → raw_fields s = p0 :: p1 :: p2 :: rest →
  (uuid_Parse p0 = None →
     UserOrganization_Scan uo src
     = Returned (mkUserOrganization None (uuid_Parse p1) p2 (UserOrganization_Metadata uo),
                 Some (errors_New "invalid user_id")))
  ∧ (is_Some (uuid_Parse p0) → uuid_Parse p1 = None →
     UserOrganization_Scan uo src
     = Returned (mkUserOrganization (uuid_Parse p0) None p2 (UserOrganization_Metadata uo),
                 Some (errors_New "invalid organization_id")))
  ∧ (is_Some (uuid_Parse p0) → is_Some (uuid_Parse p1) → p2 = EmptyString →
     UserOrganization_Scan uo src
     = Returned (mkUserOrganization (uuid_Parse p0) (uuid_Parse p1) EmptyString
                   (UserOrganization_Metadata uo),
                 Some (errors_New "invalid user_role"))).
Proof.
  intros Hsrc Hfields.
  rewrite (UserOrganization_Scan_fields uo src s p0 p1 p2 rest Hsrc Hfields).
  cbv zeta. repeat split.
  - by intros ->.
  - by intros [uid ->] ->.
  - by intros [uid ->] [oid ->] ->.
Qed.

(** X12.  [UserOrganization.Scan] returns no error exactly when its input
    splits into seven fields or more, the first two are identifiers, the
    third is not empty and [Metadata.Scan1] returns no error on the literal
    of the fourth to seventh field; the receiver then holds the two
    identifiers, the role as split and that metadata.  When [Metadata.Scan1]
    returns an error instead, it comes back wrapped, with the same
    assignments made. *)
Theorem UserOrganization_Scan_succeeds_iff uo src uo' :
  (UserOrganization_Scan uo src = Returned (uo', None)
   ↔ ∃ s p0 p1 p2 p3 p4 p5 p6 extra user_id org_id m',
       ScanToString src = (s, None)
       ∧ raw_fields s = p0 :: p1 :: p2 :: p3 :: p4 :: p5 :: p6 :: extra
       ∧ uuid_Parse p0 = Some user_id ∧ uuid_Parse p1 = Some org_id
       ∧ p2 ≠ EmptyString
       ∧ Metadata_Scan1 (UserOrganization_Metadata uo)
           (IfaceString (composite [p3; p4; p5; p6])) = (m', None)
       ∧ uo' = mkUserOrganization (Some user_id) (Some org_id) p2 m')
  ∧ (∀ s p0 p1 p2 p3 p4 p5 p6 extra user_id org_id m' e,
       ScanToString src = (s, None) →
       raw_fields s = p0 :: p1 :: p2 :: p3 :: p4 :: p5 :: p6 :: extra →
       uuid_Parse p0 = Some user_id → uuid_Parse p1 = Some org_id →
       p2 ≠ EmptyString →
       Metadata_Scan1 (UserOrganization_Metadata uo)
         (IfaceString (composite [p3; p4; p5; p6])) = (m', Some e) →
       UserOrganization_Scan uo src
       = Returned (mkUserOrganization (Some user_id) (Some org_id) p2 m',
                   Some (errors_Wrap e "error scan TimeMetadata for UserOrganization"))).
Proof.
  split; [split |].
  - destruct (ScanToString src) as [s [e|]] eqn:Hsrc.
    { by rewrite (UserOrganization_Scan_invalid_type uo src s e Hsrc). }
    destruct (raw_fields s) as [|p0 [|p1 [|p2 rest]]] eqn:Hfields.
    1-3: intros Hret; destruct (UserOrganization_Scan_few_fields uo src s Hsrc) as [p Hp];
         [rewrite Hfields; simpl; lia | congruence].
    rewrite (UserOrganization_Scan_fields uo src s p0 p1 p2 rest Hsrc Hfields).
    cbv zeta.
    destruct (uuid_Parse p0) as [uid|] eqn:H0; [| done].
    destruct (uuid_Parse p1) as [oid|] eqn:H1; [| done].
    destruct (String.eqb_spec p2 EmptyString) as [->|H2]; [done |].
    destruct rest as [|p3 [|p4 [|p5 [|p6 extra]]]]; try done.
    destruct (Metadata_Scan1 _ _) as [m' [e|]] eqn:Hm; [done |].
    intros [= <-]. exists s, p0, p1, p2, p3, p4, p5, p6, extra, uid, oid, m'.
    by repeat split.
  - intros (s & p0 & p1 & p2 & p3 & p4 & p5 & p6 & extra & uid & oid & m'
            & Hsrc & Hfields & H0 & H1 & H2 & Hm & ->).
    rewrite (UserOrganization_Scan_fields uo src s p0 p1 p2 _ Hsrc Hfields).
    cbv zeta. rewrite H0, H1, Hm. by apply String.eqb_neq in H2 as ->.
  - intros s p0 p1 p2 p3 p4 p5 p6 extra uid oid m' e Hsrc Hfields H0 H1 H2 Hm.
    rewrite (UserOrganization_Scan_fields uo src s p0 p1 p2 _ Hsrc Hfields).
    cbv zeta. rewrite H0, H1, Hm. by apply String.eqb_neq in H2 as ->.
Qed.

(** X13.  A literal made of parentheses only, the empty text among them,
    reads as one empty field: [TimeMetadata.Scan1] and [Metadata.Scan1]
    return their count error and leave the receiver as it is, and
    [UserOrganization.Scan] panics on its second field. *)
Theorem parentheses_only tm m uo s :
  all_in s "()" = true →
  TimeMetadata_Scan1 tm (IfaceString s)
  = (tm, Some (errors_New "invalid count for TimeMetadata scan"))
  ∧ Metadata_Scan1 m (IfaceString s)
    = (m, Some (errors_New "invalid count for Metadata scan"))
  ∧ UserOrganization_Scan uo (IfaceString s) = Panicked (IndexOutOfRange 1 1).
Proof.
  intros Hs.
  assert (Hfields : raw_fields s = [EmptyString]).
  { unfold raw_fields, strings_Trim. by rewrite TrimRight_only_cutset. }
  repeat split.
  - apply (TimeMetadata_Scan1_invalid_count tm (IfaceString s) s eq_refl).
    by rewrite Hfields.
  - apply (Metadata_Scan1_invalid_count m (IfaceString s) s eq_refl).
    by rewrite Hfields.
  - unfold UserOrganization_Scan. simpl ScanToString. cbv iota beta.
    fold (raw_fields s). by rewrite Hfields.
Qed.

End UserOrganizationScan.

(** ** [UserOrganizations.Scan] *)

Section UserOrganizationsScan.
Context `{D : Driver}.

Lemma UserOrganizations_Scan_range_app uos good news strArray :
  Forall2 decodes_to good news →
  UserOrganizations_Scan_range uos (good ++ strArray)%list
  = UserOrganizations_Scan_range (uos ++ news)%list strArray.
Proof.
  intros Hall. revert uos.
  induction Hall as [|elem uo good news Hhd _ IH]; intros uos; simpl.
  - by rewrite app_nil_r.
  - rewrite Hhd. simpl. rewrite IH. by rewrite <- app_assoc.
Qed.

Lemma UserOrganizations_Scan_range_prepend pre uos strArray :
  UserOrganizations_Scan_range (pre ++ uos)%list strArray
  = match UserOrganizations_Scan_range uos strArray with
    | Returned (uos', err) => Returned ((pre ++ uos')%list, err)
    | Panicked p => Panicked p
    end.
Proof.
  revert uos. induction strArray as [|elem strArray IH]; intros uos; simpl; [done |].
  destruct (UserOrganization_Scan UserOrganization_zero (IfaceString elem))
    as [[uo [e|]]|p]; simpl; [done | | done].
  by rewrite <- app_assoc, IH.
Qed.

(** X14.  The first element of the array that does not decode decides the
    result of [UserOrganizations.Scan]: when it returns an error, the scan
    returns that error, wrapped, and the receiver has gained exactly the
    elements before it; when it panics, so does the scan.  The elements after
    it are not decoded. *)
Theorem UserOrganizations_Scan_first_failure uos src good news bad rest :
  StringArray_Scan src = ((good ++ bad :: rest)%list, None) →
  Forall2 decodes_to good news →
  (∀ uo e,
     UserOrganization_Scan UserOrganization_zero (IfaceString bad)
     = Returned (uo, Some e) →
     UserOrganizations_Scan uos src
     = Returned ((uos ++ news)%list,
                 Some (errors_Wrap e
                         "error parsing db result element into user organization")))
  ∧ (∀ p,
     UserOrganization_Scan UserOrganization_zero (IfaceString bad) = Panicked p →
     UserOrganizations_Scan uos src = Panicked p).
Proof.
  intros Harray Hall. unfold UserOrganizations_Scan. rewrite Harray.
  rewrite (UserOrganizations_Scan_range_app uos good news _ Hall).
  split; [intros uo e Hbad | intros p Hbad]; simpl; by rewrite Hbad.
Qed.

(** X15.  What [UserOrganizations.Scan] does never depends on the elements
    the receiver already holds: on a receiver with further elements in
    front, the result is the same error or panic, and the same receiver with
    these elements in front. *)
Theorem UserOrganizations_Scan_frame pre uos src :
  UserOrganizations_Scan (pre ++ uos)%list src
  = match UserOrganizations_Scan uos src with
    | Returned (uos', err) => Returned ((pre ++ uos')%list, err)
    | Panicked p => Panicked p
    end.
Proof.
  unfold UserOrganizations_Scan.
  destruct (StringArray_Scan src) as [strArray [e|]]; [done |].
  apply UserOrganizations_Scan_range_prepend.
Qed.

(** X16.  Scans add up.  When two sources decode into a fresh receiver,
    scanning the first and then the second into any receiver leaves its
    previous elements followed by the elements of the first and then those
    of the second; scanning one source twice leaves its elements twice. *)
Theorem UserOrganizations_Scan_twice uos src1 src2 news1 news2 :
  UserOrganizations_Scan [] src1 = Returned (news1, None) →
  UserOrganizations_Scan [] src2 = Returned (news2, None) →
  UserOrganizations_Scan uos src1 = Returned ((uos ++ news1)%list, None)
  ∧ UserOrganizations_Scan (uos ++ news1)%list src2
    = Returned ((uos ++ news1 ++ news2)%list, None).
Proof.
  unfold UserOrganizations_Scan.
  destruct (StringArray_Scan src1) as [a1 [e1|]]; [done |].
  destruct (StringArray_Scan src2) as [a2 [e2|]]; [done |].
  intros H1 H2. split.
  - rewrite <- (app_nil_r uos) at 1.
    by rewrite UserOrganizations_Scan_range_prepend, H1.
  - rewrite <- (app_nil_r (uos ++ news1)%list) at 1.
    by rewrite UserOrganizations_Scan_range_prepend, H2, <- app_assoc.
Qed.

End UserOrganizationsScan.

(** ** [TimeMetadata.MarshalJSON] and [Metadata.MarshalJSON] *)

Section MarshalJSON.
Context `{D : Driver}.

(** X17.  [Metadata.MarshalJSON] writes of the owner its identifier and
    nothing else: two blocks whose owners have the same identifier encode
    alike, whatever else the owners hold; and an owner is written under
    [owner_id] also when the block holds nothing else. *)
Theorem Metadata_MarshalJSON_owner_id_only owner1 owner2 tm :
  User_ID owner1 = User_ID owner2 →
  Metadata_MarshalJSON (mkMetadata (Some owner1) tm)
  = Metadata_MarshalJSON (mkMetadata (Some owner2) tm)
  ∧ Metadata_MarshalJSON (mkMetadata (Some owner1) TimeMetadata_zero)
    = json_Marshal {["owner_id" := AnyUUID (User_ID owner1)]}.
Proof.
  intros Hid. unfold Metadata_MarshalJSON. simpl. by rewrite Hid.
Qed.

(** X18.  A deletion time that is the zero instant is encoded like no
    deletion time at all, by both encoders. *)
Theorem MarshalJSON_zero_DeletedAt owner created updated deleted :
  IsZero deleted = true →
  TimeMetadata_MarshalJSON (Some (mkTimeMetadata created updated (Some deleted)))
  = TimeMetadata_MarshalJSON (Some (mkTimeMetadata created updated None))
  ∧ Metadata_MarshalJSON (mkMetadata owner (mkTimeMetadata created updated (Some deleted)))
    = Metadata_MarshalJSON (mkMetadata owner (mkTimeMetadata created updated None)).
Proof.
  intros Hz. unfold TimeMetadata_MarshalJSON, Metadata_MarshalJSON. simpl.
  by rewrite Hz.
Qed.

(** X19.  The two encoders agree on a block without owner, up to the way
    the deletion time is held: unless every field is empty,
    [TimeMetadata.MarshalJSON] encodes a map with the same keys as
    [Metadata.MarshalJSON], the same created and updated times, and the
    deletion time as a value where [Metadata.MarshalJSON] has the pointer. *)
Theorem MarshalJSON_agree tm :
  let as_value (v : any) : any :=
    match v with AnyTimePtr (Some t) => AnyTime t | _ => v end in
  ∃ mm : gmap string any,
    Metadata_MarshalJSON (mkMetadata None tm) = json_Marshal mm
    ∧ (TimeMetadata_MarshalJSON (Some tm) = json_Marshal (as_value <$> mm)
       ∨ (mm = ∅ ∧ TimeMetadata_MarshalJSON (Some tm) = (None, None))).
Proof.
  intros as_value. unfold Metadata_MarshalJSON, TimeMetadata_MarshalJSON. simpl.
  eexists. split; [done |].
  destruct (IsZero (CreatedAt tm)), (IsZero (UpdatedAt tm)),
    (DeletedAt tm) as [d|]; simpl; try destruct (IsZero d); simpl;
    try (right; by rewrite ?map_size_empty);
    left; (destruct (decide _) as [Hsize|_];
           [apply map_size_empty_inv in Hsize; by apply insert_non_empty in Hsize |]);
    by rewrite !fmap_insert, !fmap_empty.
Qed.

End MarshalJSON.

(** * The further properties at concrete inputs *)

Section FurtherWitnesses.
#[local] Existing Instance Reference.driver.

Ltac run := vm_compute; first [reflexivity | discriminate | lia | by eauto].

(** X2: the second timestamp is refused, on a receiver whose three fields
    hold another time.  The first field is assigned, the second takes what
    the parser returned with its error, the third keeps its value. *)
Lemma TimeMetadata_Scan1_timestamp_failure_witness :
  ∃ tu e,
    ParseTimestamp "never" = (tu, Some e)
    ∧ TimeMetadata_Scan1
        (mkTimeMetadata sample_deleted_time sample_deleted_time
           (Some sample_deleted_time))
        (IfaceString (composite [sample_created; "never"; sample_updated]))
      = (mkTimeMetadata sample_created_time tu (Some sample_deleted_time),
         Some (errors_Wrap e "error parsing updated_at"))
    ∧ sample_created_time ≠ sample_deleted_time
    ∧ tu ≠ sample_deleted_time.
Proof.
  exists (Reference.ParseTimestamp "never").1.
  destruct (Reference.ParseTimestamp "never").2 as [e|] eqn:He; [| by vm_compute in He].
  exists e.
  assert (Hparse : ParseTimestamp "never"
                   = ((Reference.ParseTimestamp "never").1, Some e)).
  { change (ParseTimestamp "never") with (Reference.ParseTimestamp "never").
    rewrite <- He. by destruct (Reference.ParseTimestamp "never"). }
  split; [exact Hparse |]. split; [| split; run].
  destruct (TimeMetadata_Scan1_timestamp_failure (D := Reference.driver)
              (mkTimeMetadata sample_deleted_time sample_deleted_time
                 (Some sample_deleted_time))
              (IfaceString (composite [sample_created; "never"; sample_updated]))
              (composite [sample_created; "never"; sample_updated])
              sample_created "never" sample_updated) as (_ & Hupdated & _);
    [run | run |].
  apply Hupdated; [run | exact Hparse].
Defined.

(** X3: a receiver with a deletion time, a literal without one. *)
Lemma TimeMetadata_Scan1_keeps_DeletedAt_witness :
  (is_Some (DeletedAt used_TimeMetadata) →
   is_Some (DeletedAt (mkTimeMetadata sample_created_time sample_updated_time
                         (Some sample_deleted_time))))
  ∧ (is_Some (@None error) →
     DeletedAt (mkTimeMetadata sample_created_time sample_updated_time
                  (Some sample_deleted_time))
     = DeletedAt used_TimeMetadata).
Proof.
  apply (TimeMetadata_Scan1_keeps_DeletedAt (D := Reference.driver) used_TimeMetadata
           (IfaceString (composite [sample_created; sample_updated; EmptyString]))).
  run.
Defined.

(** X4: the first and the third field quoted. *)
Lemma Scan1_quotes_irrelevant_witness :
  TimeMetadata_Scan1 TimeMetadata_zero
    (IfaceString (composite [field true sample_created; sample_updated;
                             field true sample_deleted]))
  = TimeMetadata_Scan1 TimeMetadata_zero
      (IfaceString (composite [sample_created; sample_updated; sample_deleted]))
  ∧ Metadata_Scan1 Metadata_zero
      (IfaceString (composite [field true sample_created; sample_updated;
                               field true sample_deleted]))
    = Metadata_Scan1 Metadata_zero
        (IfaceString (composite [sample_created; sample_updated; sample_deleted])).
Proof.
  apply (Scan1_quotes_irrelevant (D := Reference.driver) TimeMetadata_zero Metadata_zero
           [true; false; true] [sample_created; sample_updated; sample_deleted]);
    [run | repeat constructor; run].
Defined.

(** X5: an ownership literal with a deletion time. *)
Lemma Metadata_Scan1_written_delegates_witness :
  Metadata_Scan1 Metadata_zero
    (IfaceString (composite [field true sample_id; field true sample_created;
                             field true sample_updated; field true sample_deleted]))
  = ((mkMetadata (Some (mkUser (Some sample_id_bytes) [] [] None Metadata_zero))
        (TimeMetadata_Scan1 (Metadata_TimeMetadata Metadata_zero)
           (IfaceString (composite [sample_created; sample_updated;
                                    sample_deleted]))).1),
     (TimeMetadata_Scan1 (Metadata_TimeMetadata Metadata_zero)
        (IfaceString (composite [sample_created; sample_updated;
                                 sample_deleted]))).2).
Proof.
  apply (Metadata_Scan1_written_delegates (D := Reference.driver) Metadata_zero _
           true true true true sample_id sample_created sample_updated
           sample_deleted); run.
Defined.

(** X7: the ownership literal of the specification's example. *)
Lemma Metadata_decode_encode_witness :
  (Metadata_Scan1 Metadata_zero
     (IfaceString (composite [field true sample_id; field true sample_created;
                              field true sample_updated; field true EmptyString]))).2
  = None
  ∧ Metadata_MarshalJSON
      (Metadata_Scan1 Metadata_zero
         (IfaceString (composite [field true sample_id; field true sample_created;
                                  field true sample_updated;
                                  field true EmptyString]))).1
    = json_Marshal (<["updated_at" := AnyTime sample_updated_time]>
                      (<["created_at" := AnyTime sample_created_time]>
                         (<["owner_id" := AnyUUID (Some sample_id_bytes)]> ∅))).
Proof.
  apply (Metadata_decode_encode (D := Reference.driver) _
           true true true true sample_id sample_created sample_updated); run.
Defined.

(** X11: three fields, the first no identifier. *)
Lemma UserOrganization_Scan_validation_witness :
  UserOrganization_Scan (sample_decoded "owner")
    (IfaceString (composite ["nobody"; sample_id; "user"]))
  = Returned (mkUserOrganization None (Some sample_id_bytes) "user"
                (UserOrganization_Metadata (sample_decoded "owner")),
              Some (errors_New "invalid user_id")).
Proof.
  destruct (UserOrganization_Scan_validation (D := Reference.driver)
              (sample_decoded "owner")
              (IfaceString (composite ["nobody"; sample_id; "user"]))
              (composite ["nobody"; sample_id; "user"])
              "nobody" sample_id "user" []) as (Huser & _); [run | run |].
  apply Huser. run.
Defined.

(** X13: two pairs of parentheses around nothing. *)
Lemma parentheses_only_witness :
  TimeMetadata_Scan1 used_TimeMetadata (IfaceString "(())")
  = (used_TimeMetadata, Some (errors_New "invalid count for TimeMetadata scan"))
  ∧ Metadata_Scan1 Metadata_zero (IfaceString "(())")
    = (Metadata_zero, Some (errors_New "invalid count for Metadata scan"))
  ∧ UserOrganization_Scan UserOrganization_zero (IfaceString "(())")
    = Panicked (IndexOutOfRange 1 1).
Proof.
  apply (parentheses_only (D := Reference.driver) used_TimeMetadata Metadata_zero
           UserOrganization_zero "(())"). run.
Defined.

(** X14: an array whose second element has an empty role. *)
Lemma UserOrganizations_Scan_first_failure_witness :
  UserOrganizations_Scan [sample_decoded "owner"]
    (IfaceString (array_literal [sample_membership "user";
                                 sample_membership EmptyString;
                                 sample_membership "admin"]))
  = Returned ([sample_decoded "owner"; sample_decoded "user"],
              Some (errors_Wrap (errors_New "invalid user_role")
                      "error parsing db result element into user organization")).
Proof.
  destruct (UserOrganizations_Scan_first_failure (D := Reference.driver)
              [sample_decoded "owner"]
              (IfaceString (array_literal [sample_membership "user";
                                           sample_membership EmptyString;
                                           sample_membership "admin"]))
              [sample_membership "user"] [sample_decoded "user"]
              (sample_membership EmptyString) [sample_membership "admin"])
    as (Herror & _); [run | constructor; [run | constructor] |].
  apply (Herror (mkUserOrganization (Some sample_id_bytes) (Some sample_id_bytes)
                   EmptyString Metadata_zero)).
  run.
Defined.

(** X16: two arrays of one membership each. *)
Lemma UserOrganizations_Scan_twice_witness :
  UserOrganizations_Scan [sample_decoded "owner"]
    (IfaceString (array_literal [sample_membership "user"]))
  = Returned ([sample_decoded "owner"; sample_decoded "user"], None)
  ∧ UserOrganizations_Scan [sample_decoded "owner"; sample_decoded "user"]
      (IfaceString (array_literal [sample_membership "admin"]))
    = Returned ([sample_decoded "owner"; sample_decoded "user"; sample_decoded "admin"],
                None).
Proof.
  apply (UserOrganizations_Scan_twice (D := Reference.driver) [sample_decoded "owner"]
           (IfaceString (array_literal [sample_membership "user"]))
           (IfaceString (array_literal [sample_membership "admin"]))
           [sample_decoded "user"] [sample_decoded "admin"]); run.
Defined.

(** X17: an owner that holds a membership, and one that holds none. *)
Lemma Metadata_MarshalJSON_owner_id_only_witness :
  Metadata_MarshalJSON
    (mkMetadata (Some (mkUser (Some sample_id_bytes) [sample_decoded "user"] [] None
                         Metadata_zero))
       (mkTimeMetadata sample_created_time sample_updated_time None))
  = Metadata_MarshalJSON
      (mkMetadata (Some (User_with_ID (Some sample_id_bytes)))
         (mkTimeMetadata sample_created_time sample_updated_time None))
  ∧ Metadata_MarshalJSON
      (mkMetadata (Some (mkUser (Some sample_id_bytes) [sample_decoded "user"] [] None
                           Metadata_zero)) TimeMetadata_zero)
    = json_Marshal {["owner_id" := AnyUUID (Some sample_id_bytes)]}.
Proof.
  apply (Metadata_MarshalJSON_owner_id_only (D := Reference.driver)
           (mkUser (Some sample_id_bytes) [sample_decoded "user"] [] None Metadata_zero)
           (User_with_ID (Some sample_id_bytes))).
  reflexivity.
Defined.

(** X18: the zero instant as deletion time. *)
Lemma MarshalJSON_zero_DeletedAt_witness :
  TimeMetadata_MarshalJSON
    (Some (mkTimeMetadata sample_created_time sample_updated_time (Some Time_zero)))
  = TimeMetadata_MarshalJSON
      (Some (mkTimeMetadata sample_created_time sample_updated_time None))
  ∧ Metadata_MarshalJSON
      (mkMetadata None
         (mkTimeMetadata sample_created_time sample_updated_time (Some Time_zero)))
    = Metadata_MarshalJSON
        (mkMetadata None (mkTimeMetadata sample_created_time sample_updated_time None)).
Proof.
  apply (MarshalJSON_zero_DeletedAt (D := Reference.driver) None sample_created_time
           sample_updated_time Time_zero).
  reflexivity.
Defined.

End FurtherWitnesses.
